(** * SunSync: the retrying, authenticated API layer of [api.py]

    A shallow embedding of the functions of [api.py] ([get_auth_token],
    [validate_token], [api_call], [sunsynk_api_call], [ha_api_call],
    [send_inverter_settings]) as state-passing functions over an explicit
    model of what the Python code touches: the module namespace, the file
    system, the environment, the [curl] subprocess, [time.sleep], the log
    and standard output. *)

From Stdlib Require Import ZArith String Ascii List Lia.
From Corelib Require Import PrimFloat.
From stdpp Require Import base option gmap strings list pretty.

#[local] Set Warnings "-register-all".
#[local] Open Scope Z_scope.
#[local] Open Scope string_scope.

(** ** Python values *)

(** The values [json.load] can produce: [None], [bool], [int], [float],
    [str], [list] and [dict] (keyed by strings). *)
Inductive json : Type :=
| JNull
| JBool (b : bool)
| JInt (n : Z)
| JFloat (f : float)
| JStr (s : string)
| JArr (l : list json)
| JObj (d : gmap string json).

(** Exceptions raised inside the functions of [api.py], by the code
    itself or by the library calls it makes. [JSONDecodeError] is the
    one [json.loads] raises on a text that is not JSON; on other texts
    it raises [RecursionError] (nesting too deep) or [ValueError] (a
    number too long to convert). A process that cannot be started makes
    [subprocess.call] raise [FileNotFoundError], [PermissionError] or
    another [OSError], and [ValueError] when an argument holds a NUL
    byte. *)
Inductive exn : Type :=
| NameError
| UnboundLocalError
| AttributeError
| TypeError
| FileNotFoundError
| PermissionError
| OSError
| ValueError
| RecursionError
| JSONDecodeError.

Module Py.

(** Truth value of an object, as tested by [if x], [not x], [x and y]. *)
Definition truthy (v : json) : bool :=
  match v with
  | JNull => false
  | JBool b => b
  | JInt n => negb (Z.eqb n 0)
  | JFloat f => negb (PrimFloat.eqb f 0%float)
  | JStr s => negb (String.eqb s "")
  | JArr l => negb (Nat.eqb (length l) 0)
  | JObj d => negb (Nat.eqb (size d) 0)
  end.

(** [v == s] for a string literal [s]: only a [str] equals a [str]. *)
Definition eq_str (v : json) (s : string) : bool :=
  match v with
  | JStr t => String.eqb t s
  | _ => false
  end.

(** [len(v)]; [None] stands for the [TypeError] of an object without
    length. *)
Definition len (v : json) : option nat :=
  match v with
  | JStr s => Some (String.length s)
  | JArr l => Some (length l)
  | JObj d => Some (size d)
  | _ => None
  end.

(** [needle in hay] on strings. *)
Definition contains (needle hay : string) : bool :=
  match String.index 0 needle hay with
  | Some _ => true
  | None => false
  end.

(** [s.startswith(p)]. *)
Definition startswith (s p : string) : bool := String.prefix p s.

(** [s[n:]]. *)
Fixpoint slice_from (n : nat) (s : string) : string :=
  match n, s with
  | O, _ => s
  | S n', String _ s' => slice_from n' s'
  | S _, EmptyString => EmptyString
  end.

(** The double quote character, and a string between double quotes. *)
(** [except json.JSONDecodeError]: the handler takes that exception
    and lets every other one through. *)
Definition is_json_decode_error (e : exn) : bool :=
  match e with
  | JSONDecodeError => true
  | _ => false
  end.

Definition dq : string := String "034"%char EmptyString.
Definition quoted (s : string) : string := dq +:+ s +:+ dq.

End Py.

(** ** The world outside the module *)

(** What one run of [curl] does: it either exits with a status, having
    left [written] in its [-o] sink ([None]: the sink was not created or
    touched), or cannot be spawned at all, in which case
    [subprocess.call] raises [e]: [FileNotFoundError] without a curl
    executable, [PermissionError] or another [OSError] when it may not
    be run, [ValueError] when an argument holds a NUL byte. *)
Inductive proc_result : Type :=
| Exited (code : Z) (written : option string)
| SpawnFailed (e : exn).

(** Everything the code reads but does not own. [json_loads] is the
    decoder of the [json] module ([None]: it raises), and [json_error]
    is the exception it raises on a text it does not decode;
    [repr_other] is [str()] on floats, lists and dicts; [environ] is
    [os.environ];
    [transport n argv] is the outcome of the [n]-th (from 0) call of
    [subprocess.call], made with [argv]. *)
Record world : Type := {
  json_loads : string -> option json;
  json_error : string -> exn;
  repr_other : json -> string;
  environ : gmap string string;
  transport : nat -> list string -> proc_result
}.

(** What the code changes. [globals] is the namespace of module [api];
    [files] maps a path to the content of the file there; the remaining
    fields record the calls made, latest first. *)
Record state : Type := {
  globals : gmap string json;
  files : gmap string string;
  curl_calls : list (list string);
  slept : list Z;
  logged : list (string * string);
  printed : list string
}.

Definition set_globals (g : gmap string json) (s : state) : state :=
  {| globals := g; files := files s; curl_calls := curl_calls s;
     slept := slept s; logged := logged s; printed := printed s |}.

Definition set_files (f : gmap string string) (s : state) : state :=
  {| globals := globals s; files := f; curl_calls := curl_calls s;
     slept := slept s; logged := logged s; printed := printed s |}.

Definition push_curl_call (cmd : list string) (s : state) : state :=
  {| globals := globals s; files := files s; curl_calls := cmd :: curl_calls s;
     slept := slept s; logged := logged s; printed := printed s |}.

Definition push_slept (d : Z) (s : state) : state :=
  {| globals := globals s; files := files s; curl_calls := curl_calls s;
     slept := d :: slept s; logged := logged s; printed := printed s |}.

Definition push_logged (l : string * string) (s : state) : state :=
  {| globals := globals s; files := files s; curl_calls := curl_calls s;
     slept := slept s; logged := l :: logged s; printed := printed s |}.

Definition push_printed (l : string) (s : state) : state :=
  {| globals := globals s; files := files s; curl_calls := curl_calls s;
     slept := slept s; logged := logged s; printed := l :: printed s |}.

(** The module namespace right after [import api] (lines 12-14). *)
Definition module_globals : gmap string json :=
  <["SERVER_API_BEARER_TOKEN" := JStr ""]>
  (<["SERVER_API_BEARER_TOKEN_SUCCESS" := JStr ""]>
  (<["SERVER_API_BEARER_TOKEN_MSG" := JStr ""]> ∅)).

Definition initial_state (fs : gmap string string) : state :=
  {| globals := module_globals; files := fs; curl_calls := [];
     slept := []; logged := []; printed := [] |}.

(** ** A state and exception monad *)

(** A call returns a value, raises, or (only in the model) runs out of
    loop fuel. *)
Inductive outcome (A : Type) : Type :=
| Ret (a : A)
| Raise (e : exn)
| OutOfFuel.
Arguments Ret {A} a.
Arguments Raise {A} e.
Arguments OutOfFuel {A}.

Definition M (A : Type) : Type := state -> outcome A * state.

Definition ret {A} (a : A) : M A := fun s => (Ret a, s).
Definition raise {A} (e : exn) : M A := fun s => (Raise e, s).
Definition out_of_fuel {A} : M A := fun s => (OutOfFuel, s).

Definition bind {A B} (m : M A) (k : A -> M B) : M B :=
  fun s =>
    match m s with
    | (Ret a, s') => k a s'
    | (Raise e, s') => (Raise e, s')
    | (OutOfFuel, s') => (OutOfFuel, s')
    end.

Declare Scope py_scope.
Delimit Scope py_scope with py.
Notation "'let*' x ':=' m 'in' k" := (bind m (fun x => k))
  (at level 10, x name, m at level 100, k at level 200) : py_scope.
Notation "m ';;;' k" := (bind m (fun _ => k))
  (at level 100, k at level 200, right associativity) : py_scope.
#[local] Open Scope py_scope.

Definition modify (f : state -> state) : M unit := fun s => (Ret tt, f s).
Definition gets {A} (f : state -> A) : M A := fun s => (Ret (f s), s).

(** [while cond: body] where [body] may [return]: an iteration yields
    [inl st] (fall through or [continue] with the loop variables [st]) or
    [inr v] ([return v]); [after] is the code that follows the loop. *)
Fixpoint while_loop {St R} (fuel : nat) (cond : St -> bool)
    (body : St -> M (St + R)) (after : St -> M R) (st : St) : M R :=
  match fuel with
  | O => out_of_fuel
  | S fuel' =>
      if cond st then
        let* r := body st in
        match r with
        | inl st' => while_loop fuel' cond body after st'
        | inr v => ret v
        end
      else after st
  end.

Definition continue_with {St R} (st : St) : M (St + R) := ret (inl st).
Definition return_ {St R} (v : R) : M (St + R) := ret (inr v).

(** ** Constants of the module (lines 17-18) *)

Definition DEFAULT_MAX_RETRIES : Z := 3.
Definition DEFAULT_RETRY_DELAY : Z := 30.

(** Fuel for a loop [while retry_count < DEFAULT_MAX_RETRIES] whose
    iterations each add one to [retry_count] or return: one unit per
    iteration and one for the test that leaves the loop. *)
Definition retry_fuel (retry_count : Z) : nat :=
  S (Z.to_nat (DEFAULT_MAX_RETRIES - retry_count)).

(** ** Primitive effects *)

Section Primitives.

Variable W : world.

(** Modelled from the spec: [log_message] is called throughout [api.py]
    but defined nowhere in it; the spec describes the logging surface as
    an external collaborator that receives leveled messages ([INFO],
    [WARNING], [ERROR]). It is modelled as recording the level and the
    message. *)
Definition log_message (level msg : string) : M unit :=
  modify (push_logged (level, msg)).

Definition time_sleep (seconds : Z) : M unit := modify (push_slept seconds).

Definition print (line : string) : M unit := modify (push_printed line).

(** [os.getenv(name)], and its rendering inside an f-string. *)
Definition os_getenv (name : string) : option string := environ W !! name.

Definition fmt_getenv (name : string) : string :=
  match os_getenv name with
  | Some v => v
  | None => "None"
  end.

(** [str(v)], as f-strings apply it. *)
Definition py_str (v : json) : string :=
  match v with
  | JNull => "None"
  | JBool true => "True"
  | JBool false => "False"
  | JInt n => pretty n
  | JStr s => s
  | _ => repr_other W v
  end.

(** The sink of a curl command line: [api_call] puts it last. *)
Definition sink_of (cmd : list string) : string := List.last cmd "".

(** The state after a run of curl that left [written] in its sink:
    the call is recorded, and what curl wrote lands in the sink unless
    that is the discard sink. *)
Definition curl_effect (cmd : list string) (written : option string)
    (s : state) : state :=
  let s1 := push_curl_call cmd s in
  match written with
  | Some content =>
      if String.eqb (sink_of cmd) "/dev/null" then s1
      else set_files (<[sink_of cmd := content]> (files s1)) s1
  | None => s1
  end.

(** [subprocess.call(cmd)]: the world decides the outcome of this call
    from the number of calls made before it and the command line. *)
Definition subprocess_call (cmd : list string) : M Z :=
  fun s =>
    match transport W (length (curl_calls s)) cmd with
    | Exited code written => (Ret code, curl_effect cmd written s)
    | SpawnFailed e => (Raise e, push_curl_call cmd s)
    end.

(** [os.path.exists(path)]. *)
Definition os_path_exists (path : string) : M bool :=
  gets (fun s => bool_decide (is_Some (files s !! path))).

(** [os.stat(path).st_size]. *)
Definition os_stat_size (path : string) : M Z :=
  fun s =>
    match files s !! path with
    | Some content => (Ret (Z.of_nat (String.length content)), s)
    | None => (Raise FileNotFoundError, s)
    end.

(** [open(path, 'r').read()]. *)
Definition read_text (path : string) : M string :=
  fun s =>
    match files s !! path with
    | Some content => (Ret content, s)
    | None => (Raise FileNotFoundError, s)
    end.

(** [with open(path, 'r') as f: json.load(f)] under
    [try ... except Exception]: [None] when anything was raised. *)
Definition try_json_load (path : string) : M (option json) :=
  gets (fun s =>
    match files s !! path with
    | Some content => json_loads W content
    | None => None
    end).

(** [obj.get(key, default)]: a method of [dict] only. *)
Definition py_get (obj : json) (key : string) (default : json) : M json :=
  match obj with
  | JObj d =>
      match d !! key with
      | Some v => ret v
      | None => ret default
      end
  | _ => raise AttributeError
  end.

(** [len(obj)]. *)
Definition py_len (obj : json) : M nat :=
  match Py.len obj with
  | Some n => ret n
  | None => raise TypeError
  end.

(** A global variable read from inside a function that never assigns
    the name. *)
Definition load_global (name : string) : M json :=
  fun s =>
    match globals s !! name with
    | Some v => (Ret v, s)
    | None => (Raise NameError, s)
    end.

End Primitives.

(** ** The functions of [api.py] *)

Section Api.

Variable W : world.

(** *** [api_call] (lines 191-273) *)

(** Lines 198-209: the request body, taken from the first [-d ] header
    of a JSON POST. *)
Definition extract_data (method : string) (headers : list string) : string :=
  if String.eqb method "POST"
     && existsb (Py.contains "Content-Type: application/json") headers
  then
    match List.find (fun header => Py.startswith header "-d ") headers with
    | Some header => Py.slice_from 3 header
    | None => ""
    end
  else "".

(** Lines 213-227: the curl command line of one attempt. *)
Definition curl_cmd (method url output_file : string)
    (headers : list string) (data : string) : list string :=
  ["curl"; "-s"; "-f"; "-S"; "-k"; "-X"; method]
  ++ flat_map (fun header =>
                 if Py.startswith header "-d " then [] else ["-H"; header])
              headers
  ++ (if Py.truthy (JStr data) then ["-d"; data] else [])
  ++ [url; "-o"; output_file].

(** Lines 212-267: one iteration of the retry loop; the loop variable
    is [retry_count]. *)
Definition api_call_body (method url output_file : string)
    (headers : list string) (data : string) (retry_count : Z)
    : M (Z + Z) :=
  let* rc := subprocess_call W (curl_cmd method url output_file headers data) in
  if Z.eqb rc 0 then
    let* empty :=
      (if negb (String.eqb output_file "/dev/null") then
         let* size := os_stat_size output_file in
         ret (Z.eqb size 0)
       else ret false) in
    if (empty : bool) then
      log_message "WARNING"
        ("API call returned empty response: " +:+ method +:+ " " +:+ url) ;;;
      let retry_count := retry_count + 1 in
      if Z.ltb retry_count DEFAULT_MAX_RETRIES then
        log_message "INFO" "Retrying in 5 seconds..." ;;;
        time_sleep 5 ;;;
        continue_with retry_count
      else return_ 0
    else return_ 0
  else
    log_message "WARNING"
      ("API call failed: " +:+ method +:+ " " +:+ url +:+ ", attempt "
       +:+ pretty (retry_count + 1) +:+ "/" +:+ pretty DEFAULT_MAX_RETRIES) ;;;
    let retry_count := retry_count + 1 in
    (if Z.ltb retry_count DEFAULT_MAX_RETRIES then
       log_message "INFO" "Retrying in 5 seconds..." ;;;
       time_sleep 5
     else ret tt) ;;;
    continue_with retry_count.

(** Lines 269-273: after the loop. *)
Definition api_call_after (method url : string) (retry_count : Z) : M Z :=
  log_message "ERROR"
    ("API call failed after " +:+ pretty DEFAULT_MAX_RETRIES
     +:+ " attempts: " +:+ method +:+ " " +:+ url) ;;;
  ret 1.

Definition api_call (method url output_file : string)
    (headers : list string) : M Z :=
  let retry_count := 0 in
  let data := extract_data method headers in
  while_loop (retry_fuel retry_count)
    (fun retry_count => Z.ltb retry_count DEFAULT_MAX_RETRIES)
    (api_call_body method url output_file headers data)
    (api_call_after method url)
    retry_count.

(** *** Names assigned inside a function *)

(** A name that a function body assigns is local to the call unless
    the body declares it [global]. [decls] lists the names the function
    declares global; [locals] is the local namespace of the call. *)

(** [name = v] inside the function. *)
Definition store_name (decls : list string) (locals : gmap string json)
    (name : string) (v : json) : M (gmap string json) :=
  if bool_decide (name ∈ decls) then
    modify (fun s => set_globals (<[name := v]> (globals s)) s) ;;;
    ret locals
  else ret (<[name := v]> locals).

(** Reading a name that the function body assigns somewhere. *)
Definition load_name (decls : list string) (locals : gmap string json)
    (name : string) : M json :=
  if bool_decide (name ∈ decls) then load_global name
  else
    match locals !! name with
    | Some v => ret v
    | None => raise UnboundLocalError
    end.

(** *** [get_auth_token] (lines 22-151) *)

(** The names [get_auth_token] declares global: its body has no
    [global] statement. *)
Definition get_auth_token_global_decls : list string := [].

Definition assign := store_name get_auth_token_global_decls.
Definition lookup_name := load_name get_auth_token_global_decls.

Definition rule : string :=
  "------------------------------------------------------------------------------".

(** Lines 38-39: the [-d ] pseudo header carrying the credentials. *)
Definition token_request_data : string :=
  "-d {" +:+ Py.quoted "areaCode" +:+ ": " +:+ Py.quoted "sunsynk" +:+ ","
  +:+ Py.quoted "client_id" +:+ ": " +:+ Py.quoted "csp-web" +:+ ","
  +:+ Py.quoted "grant_type" +:+ ": " +:+ Py.quoted "password" +:+ ","
  +:+ Py.quoted "password" +:+ ": "
  +:+ Py.quoted (fmt_getenv W "SUNSYNK_PASS") +:+ ","
  +:+ Py.quoted "source" +:+ ": " +:+ Py.quoted "sunsynk" +:+ ","
  +:+ Py.quoted "username" +:+ ": "
  +:+ Py.quoted (fmt_getenv W "SUNSYNK_USER") +:+ "}".

(** Line 111: [SERVER_API_BEARER_TOKEN_SUCCESS == "true" and
    SERVER_API_BEARER_TOKEN], the right operand being read only when
    the left one holds. *)
Definition token_check (locals : gmap string json) : M bool :=
  let* success := lookup_name locals "SERVER_API_BEARER_TOKEN_SUCCESS" in
  if Py.eq_str success "true" then
    let* token := lookup_name locals "SERVER_API_BEARER_TOKEN" in
    ret (Py.truthy token)
  else ret false.

(** Lines 32-142: one iteration; the loop variables are [retry_count]
    and the local names. *)
Definition get_auth_token_body (output_file : string)
    (st : Z * gmap string json) : M (Z * gmap string json + Z) :=
  let retry_count := fst st in
  let locals := snd st in
  let* status :=
    api_call "POST" "https://api.sunsynk.net/oauth/token" output_file
      ["Content-Type: application/json"; token_request_data] in
  if Py.truthy (JInt status) then
    let* found := os_path_exists output_file in
    if negb found then
      log_message "ERROR" "Token response file not found" ;;;
      let retry_count := retry_count + 1 in
      time_sleep DEFAULT_RETRY_DELAY ;;;
      continue_with (retry_count, locals)
    else
      (if bool_decide (os_getenv W "ENABLE_VERBOSE_LOG" = Some "true") then
         print "Raw token data" ;;;
         print rule ;;;
         print "token.json" ;;;
         let* content := read_text output_file in
         print content ;;;
         print rule
       else ret tt) ;;;
      let* parsed := try_json_load W output_file in
      match parsed with
      | None =>
          log_message "ERROR" "Failed to parse token data" ;;;
          let retry_count := retry_count + 1 in
          time_sleep DEFAULT_RETRY_DELAY ;;;
          continue_with (retry_count, locals)
      | Some response_data =>
          let* data := py_get response_data "data" (JObj ∅) in
          let* token := py_get data "access_token" (JStr "") in
          let* locals := assign locals "SERVER_API_BEARER_TOKEN" token in
          let* success := py_get response_data "success" (JStr "false") in
          let* locals :=
            assign locals "SERVER_API_BEARER_TOKEN_SUCCESS" success in
          let* ok := token_check locals in
          if (ok : bool) then
            log_message "INFO" "Valid token retrieved." ;;;
            let* token := lookup_name locals "SERVER_API_BEARER_TOKEN" in
            let* n := py_len token in
            log_message "INFO" ("Bearer Token length: " +:+ pretty n) ;;;
            return_ 0
          else
            let* msg := py_get response_data "msg" (JStr "Unknown error") in
            let* locals := assign locals "SERVER_API_BEARER_TOKEN_MSG" msg in
            let* msg := lookup_name locals "SERVER_API_BEARER_TOKEN_MSG" in
            log_message "WARNING"
              ("Invalid token received: " +:+ py_str W msg
               +:+ ". Retrying after a sleep...") ;;;
            time_sleep DEFAULT_RETRY_DELAY ;;;
            let retry_count := retry_count + 1 in
            continue_with (retry_count, locals)
      end
  else
    log_message "ERROR"
      ("Error getting token. Retrying in " +:+ pretty DEFAULT_RETRY_DELAY
       +:+ " seconds...") ;;;
    time_sleep DEFAULT_RETRY_DELAY ;;;
    let retry_count := retry_count + 1 in
    continue_with (retry_count, locals).

(** Lines 144-151: after the loop. *)
Definition get_auth_token_after (st : Z * gmap string json) : M Z :=
  let retry_count := fst st in
  if Z.leb DEFAULT_MAX_RETRIES retry_count then
    log_message "ERROR" "Maximum retries reached. Cannot obtain auth token." ;;;
    ret 1
  else ret 0.

Definition get_auth_token : M Z :=
  log_message "INFO"
    "Getting bearer token from solar service provider's API." ;;;
  let retry_count := 0 in
  let output_file := "token.json" in
  while_loop (retry_fuel retry_count)
    (fun st => Z.ltb (fst st) DEFAULT_MAX_RETRIES)
    (get_auth_token_body output_file)
    get_auth_token_after
    (retry_count, ∅).

(** *** [validate_token] (lines 155-187) *)

Definition validate_token : M Z :=
  let* token := load_global "SERVER_API_BEARER_TOKEN" in
  if negb (Py.truthy token) then
    log_message "ERROR"
      "****Token could not be retrieved due to the following possibilities****" ;;;
    log_message "ERROR"
      "Incorrect setup, please check the configuration tab." ;;;
    log_message "ERROR"
      "Either this HA instance cannot reach Sunsynk.net due to network problems or the Sunsynk server is down." ;;;
    log_message "ERROR"
      "The Sunsynk server admins are rejecting due to too frequent connection requests." ;;;
    log_message "ERROR"
      "This Script will not continue but will retry on next iteration. No values were updated." ;;;
    ret 1
  else
    log_message "INFO"
      "Sunsynk Server API Token: Hidden for security reasons" ;;;
    log_message "INFO"
      "Note: Setting the refresh rate of this addon to be lower than the update rate of the SunSynk server will not increase the actual update rate." ;;;
    ret 0.

(** *** [sunsynk_api_call] (lines 277-302) *)

Definition sunsynk_api_call (endpoint output_file : string) : M Z :=
  if negb (Py.truthy (JStr endpoint)) || negb (Py.truthy (JStr output_file))
  then
    log_message "ERROR" "Missing required parameters for sunsynk_api_call" ;;;
    ret 1
  else
    let* token := load_global "SERVER_API_BEARER_TOKEN" in
    if negb (Py.truthy token) then
      log_message "ERROR" "No valid bearer token available for API call" ;;;
      ret 1
    else
      let* token := load_global "SERVER_API_BEARER_TOKEN" in
      api_call "GET" endpoint output_file
        ["Content-Type: application/json";
         "authorization: Bearer " +:+ py_str W token].

(** *** [ha_api_call] (lines 306-346) *)

Definition ha_api_call (endpoint method data output_file : string) : M Z :=
  if negb (Py.truthy (JStr endpoint)) then
    log_message "ERROR" "Missing required parameters for ha_api_call" ;;;
    ret 1
  else
    let no_token :=
      match os_getenv W "HA_TOKEN" with
      | Some v => negb (Py.truthy (JStr v))
      | None => true
      end in
    if no_token then
      log_message "ERROR" "No valid HA token available for API call" ;;;
      ret 1
    else
      let url :=
        fmt_getenv W "HTTP_CONNECT_TYPE" +:+ "://" +:+ fmt_getenv W "HA_IP"
        +:+ ":" +:+ fmt_getenv W "HA_PORT" +:+ endpoint in
      let headers :=
        ["Authorization: Bearer " +:+ fmt_getenv W "HA_TOKEN";
         "Content-Type: application/json"] in
      let headers :=
        if Py.truthy (JStr data) then (headers ++ ["-d " +:+ data])%list
        else headers in
      api_call method url output_file headers.

(** *** [send_inverter_settings] (lines 350-525) *)

(** The tail shared by the three retryable outcomes of an attempt whose
    transport succeeded (lines 415-425, 462-472, 493-503): count the
    attempt, then either wait and [continue] or [return 1]. *)
Definition settings_retry (retry_count : Z) : M (Z + Z) :=
  let retry_count := retry_count + 1 in
  if Z.ltb retry_count DEFAULT_MAX_RETRIES then
    log_message "INFO"
      ("Retrying in " +:+ pretty DEFAULT_RETRY_DELAY +:+ " seconds...") ;;;
    time_sleep DEFAULT_RETRY_DELAY ;;;
    continue_with retry_count
  else return_ 1.

(** Lines 396-519: one iteration; the loop variable is [retry_count]. *)
Definition send_inverter_settings_body
    (inverter_sn settings_data endpoint output_file : string)
    (retry_count : Z) : M (Z + Z) :=
  let* token := load_global "SERVER_API_BEARER_TOKEN" in
  let* status :=
    api_call "POST" endpoint output_file
      ["Content-Type: application/json";
       "authorization: Bearer " +:+ py_str W token;
       "-d " +:+ settings_data] in
  if Z.eqb status 0 then
    let* found := os_path_exists output_file in
    if negb found then
      log_message "ERROR" "Settings response file not found" ;;;
      settings_retry retry_count
    else
      (if bool_decide (os_getenv W "ENABLE_VERBOSE_LOG" = Some "true") then
         print "Settings response:" ;;;
         print rule ;;;
         let* content := read_text output_file in
         print content ;;;
         print rule
       else ret tt) ;;;
      let* parsed := try_json_load W output_file in
      match parsed with
      | None =>
          log_message "ERROR" "Failed to parse settings response" ;;;
          settings_retry retry_count
      | Some response_data =>
          let* success := py_get response_data "success" (JStr "false") in
          if Py.eq_str success "true" then
            log_message "INFO" "Successfully updated inverter settings" ;;;
            return_ 0
          else
            let* error_msg :=
              py_get response_data "msg" (JStr "Unknown error") in
            log_message "ERROR"
              ("Failed to update inverter settings: "
               +:+ py_str W error_msg) ;;;
            settings_retry retry_count
      end
  else
    log_message "ERROR"
      ("Failed to send settings to inverter " +:+ inverter_sn) ;;;
    let retry_count := retry_count + 1 in
    if Z.ltb retry_count DEFAULT_MAX_RETRIES then
      log_message "INFO"
        ("Retrying in " +:+ pretty DEFAULT_RETRY_DELAY +:+ " seconds...") ;;;
      time_sleep DEFAULT_RETRY_DELAY ;;;
      continue_with retry_count
    else return_ 1.

(** Lines 521-525: after the loop. *)
Definition send_inverter_settings_after (retry_count : Z) : M Z :=
  log_message "ERROR"
    ("Failed to update inverter settings after "
     +:+ pretty DEFAULT_MAX_RETRIES +:+ " attempts") ;;;
  ret 1.

Definition send_inverter_settings (inverter_sn settings_data : string)
    : M Z :=
  let retry_count := 0 in
  if negb (Py.truthy (JStr inverter_sn))
     || negb (Py.truthy (JStr settings_data))
  then
    log_message "ERROR"
      "Missing required parameters for send_inverter_settings" ;;;
    ret 1
  else
    match json_loads W settings_data with
    | None =>
        if Py.is_json_decode_error (json_error W settings_data) then
          log_message "ERROR" "Invalid JSON format in settings data" ;;;
          ret 1
        else raise (json_error W settings_data)
    | Some _ =>
        let endpoint :=
          "https://api.sunsynk.net/api/v1/common/setting/" +:+ inverter_sn
          +:+ "/set" in
        let output_file := "inverter_settings_response.json" in
        log_message "INFO" ("Sending settings to inverter " +:+ inverter_sn) ;;;
        (if bool_decide (os_getenv W "ENABLE_VERBOSE_LOG" = Some "true") then
           print "Sending settings data:" ;;;
           print settings_data
         else ret tt) ;;;
        while_loop (retry_fuel retry_count)
          (fun retry_count => Z.ltb retry_count DEFAULT_MAX_RETRIES)
          (send_inverter_settings_body inverter_sn settings_data endpoint
             output_file)
          send_inverter_settings_after
          retry_count
    end.

(** *** The operations of the layer, as one type *)

Inductive operation : Type :=
| OpGetAuthToken
| OpValidateToken
| OpApiCall (method url output_file : string) (headers : list string)
| OpSunsynkApiCall (endpoint output_file : string)
| OpHaApiCall (endpoint method data output_file : string)
| OpSendInverterSettings (inverter_sn settings_data : string).

Definition run (op : operation) : M Z :=
  match op with
  | OpGetAuthToken => get_auth_token
  | OpValidateToken => validate_token
  | OpApiCall method url output_file headers =>
      api_call method url output_file headers
  | OpSunsynkApiCall endpoint output_file =>
      sunsynk_api_call endpoint output_file
  | OpHaApiCall endpoint method data output_file =>
      ha_api_call endpoint method data output_file
  | OpSendInverterSettings inverter_sn settings_data =>
      send_inverter_settings inverter_sn settings_data
  end.

End Api.

(** ** The process-wide token *)

(** The spec's Token, read off the module namespace: [value] is
    [SERVER_API_BEARER_TOKEN], and [isValid] says that
    [SERVER_API_BEARER_TOKEN_SUCCESS] is the string [true]. *)
Definition token_value (s : state) : option json :=
  globals s !! "SERVER_API_BEARER_TOKEN".

Definition token_is_valid (s : state) : bool :=
  match globals s !! "SERVER_API_BEARER_TOKEN_SUCCESS" with
  | Some v => Py.eq_str v "true"
  | None => false
  end.

Definition token_nonempty (s : state) : bool :=
  match token_value s with
  | Some v => Py.truthy v
  | None => false
  end.

Definition token_invariant (s : state) : Prop :=
  token_is_valid s = true -> token_nonempty s = true.

(** ** Vocabulary of the statements *)

(** A computation that leaves the module namespace as it found it,
    whatever its outcome. *)
Definition preserves_globals {A} (m : M A) : Prop :=
  forall s, globals (snd (m s)) = globals s.

(** A computation that, from every state, returns a value satisfying [Q]
    or raises; it never runs out of fuel. *)
Definition returns_or_raises {A} (Q : A -> Prop) (m : M A) : Prop :=
  forall s,
    match fst (m s) with
    | Ret a => Q a
    | Raise _ => True
    | OutOfFuel => False
    end.

Abbreviation terminates m := (returns_or_raises (fun _ => True) m).

(** [s'] is [s] after the transport calls [calls] and the waits
    [sleeps] (latest first), with the module namespace untouched. *)
Definition advanced (s s' : state) (calls : list (list string))
    (sleeps : list Z) : Prop :=
  curl_calls s' = (calls ++ curl_calls s)%list
  /\ slept s' = (sleeps ++ slept s)%list
  /\ globals s' = globals s.

(** A transport that fails on every attempt and leaves no sink. *)
Definition transport_always_fails (W : world) : Prop :=
  forall n cmd, exists code, code <> 0 /\ transport W n cmd = Exited code None.

(** A transport that succeeds on every attempt and leaves an empty
    sink. *)
Definition transport_always_empty (W : world) : Prop :=
  forall n cmd, transport W n cmd = Exited 0 (Some "").

(** A transport that succeeds on every attempt and leaves a non-empty
    sink. *)
Definition transport_always_answers (W : world) : Prop :=
  forall n cmd,
    exists body, body <> "" /\ transport W n cmd = Exited 0 (Some body).

(** The command line of every token request. *)
Definition token_curl_cmd (W : world) : list string :=
  curl_cmd "POST" "https://api.sunsynk.net/oauth/token" "token.json"
    ["Content-Type: application/json"; token_request_data W]
    (extract_data "POST"
       ["Content-Type: application/json"; token_request_data W]).


(** ** Sample responses and worlds *)

Module Sample.

(** Response bodies as the server sends them, and what they decode to. *)
Definition body_token_ok : string :=
  "{" +:+ Py.quoted "success" +:+ ":" +:+ Py.quoted "true" +:+ ","
  +:+ Py.quoted "data" +:+ ":{" +:+ Py.quoted "access_token" +:+ ":"
  +:+ Py.quoted "abc" +:+ "}}".

Definition resp_token_ok : json :=
  JObj (<["success" := JStr "true"]>
        (<["data" := JObj (<["access_token" := JStr "abc"]> ∅)]> ∅)).

Definition body_token_bool : string :=
  "{" +:+ Py.quoted "success" +:+ ":true,"
  +:+ Py.quoted "data" +:+ ":{" +:+ Py.quoted "access_token" +:+ ":"
  +:+ Py.quoted "abc" +:+ "}}".

Definition resp_token_bool : json :=
  JObj (<["success" := JBool true]>
        (<["data" := JObj (<["access_token" := JStr "abc"]> ∅)]> ∅)).

Definition body_true : string :=
  "{" +:+ Py.quoted "success" +:+ ":" +:+ Py.quoted "true" +:+ "}".
Definition resp_true : json := JObj (<["success" := JStr "true"]> ∅).

Definition body_false : string :=
  "{" +:+ Py.quoted "success" +:+ ":" +:+ Py.quoted "false" +:+ "}".
Definition resp_false : json := JObj (<["success" := JStr "false"]> ∅).

Definition body_bool_true : string :=
  "{" +:+ Py.quoted "success" +:+ ":true}".
Definition resp_bool_true : json := JObj (<["success" := JBool true]> ∅).

Definition body_null : string := "null".

Definition settings : string :=
  "{" +:+ Py.quoted "workMode" +:+ ":1}".
Definition settings_value : json := JObj (<["workMode" := JInt 1]> ∅).

(** [json.loads] on the sample texts; every other text is taken to be
    malformed, as the empty text and [not json] are. *)
Definition decode_table : list (string * json) :=
  [ (body_token_ok, resp_token_ok);
    (body_token_bool, resp_token_bool);
    (body_true, resp_true);
    (body_false, resp_false);
    (body_bool_true, resp_bool_true);
    (body_null, JNull);
    (settings, settings_value) ].

Definition loads (text : string) : option json :=
  snd <$> List.find (fun row => String.eqb (fst row) text) decode_table.

(** A payload of 100000 opening brackets: it is not JSON, and the
    decoder gives up on its depth with [RecursionError] before it finds
    that out. *)
Definition deep_payload : string :=
  Pos.iter (String "["%char) EmptyString 100000%positive.

(** What [json.loads] raises on a text it does not decode. *)
Definition loads_error (text : string) : exn :=
  if String.eqb text deep_payload then RecursionError else JSONDecodeError.

Definition world_with (net : nat -> list string -> proc_result) : world :=
  {| json_loads := loads;
     json_error := loads_error;
     repr_other := fun _ => "<object>";
     environ := ∅;
     transport := net |}.

(** Every request succeeds and is answered with [body]. *)
Definition always_answers (body : string) : world :=
  world_with (fun _ _ => Exited 0 (Some body)).

(** Every request fails (curl exits with 22, the status of [-f] on an
    HTTP error) and leaves no sink. *)
Definition always_fails : world :=
  world_with (fun _ _ => Exited 22 None).

(** Every request succeeds but curl leaves no sink behind. *)
Definition succeeds_without_sink : world :=
  world_with (fun _ _ => Exited 0 None).


(** What the claims observe of a call: its outcome, the number of
    transport calls, the waits (latest first), and the token. *)
Definition summary (r : outcome Z * state)
    : outcome Z * nat * list Z * option json * bool :=
  (fst r, length (curl_calls (snd r)), slept (snd r),
   token_value (snd r), token_is_valid (snd r)).

(** A state in which a token is held and marked valid. *)
Definition state_with_token : state :=
  set_globals
    (<["SERVER_API_BEARER_TOKEN" := JStr "abc"]>
     (<["SERVER_API_BEARER_TOKEN_SUCCESS" := JStr "true"]> module_globals))
    (initial_state ∅).

(** A state in which a token is held and marked invalid. *)
Definition state_with_invalid_token : state :=
  set_globals
    (<["SERVER_API_BEARER_TOKEN" := JStr "abc"]>
     (<["SERVER_API_BEARER_TOKEN_SUCCESS" := JStr "false"]> module_globals))
    (initial_state ∅).

End Sample.

(** ** Vocabulary of the further properties *)

(** *** Attempts of [api_call] *)

(** [r] is the result of making [k] transport calls with the command
    line [cmd] from [s], with a wait of 5 seconds between two calls: the
    module namespace and every file but the sink [out] are as in [s],
    and a status that is returned is 0 or 1. *)
Definition attempts_made (cmd : list string) (out : string) (k : nat)
    (s : state) (r : outcome Z * state) : Prop :=
  curl_calls (snd r) = (replicate k cmd ++ curl_calls s)%list
  /\ slept (snd r) = (replicate (k - 1) 5 ++ slept s)%list
  /\ globals (snd r) = globals s
  /\ (forall path, path <> out -> files (snd r) !! path = files s !! path)
  /\ match fst r with
     | Ret status => status = 0 \/ status = 1
     | Raise _ => True
     | OutOfFuel => False
     end.

(** The [n]-th transport call ends with a status other than 0. *)
Definition attempt_fails (W : world) (n : nat) (cmd : list string) : Prop :=
  exists code written, code <> 0 /\ transport W n cmd = Exited code written.

(** The [n]-th transport call is one that [api_call] retries: it fails,
    or it succeeds and leaves an empty sink. *)
Definition attempt_retried (W : world) (n : nat) (cmd : list string) : Prop :=
  attempt_fails W n cmd \/ transport W n cmd = Exited 0 (Some "").

(** *** More worlds *)

Module Scenario.

(** Two empty responses, then [body]. *)
Definition empty_twice_then (body : string) : world :=
  Sample.world_with (fun n _ =>
    match n with
    | 0%nat | 1%nat => Exited 0 (Some "")
    | _ => Exited 0 (Some body)
    end).

(** Every request fails after curl has written [partial] to its sink. *)
Definition fails_leaving (partial : string) : world :=
  Sample.world_with (fun _ _ => Exited 18 (Some partial)).

(** The environment of a configured Home Assistant client. *)
Definition ha_environ : gmap string string :=
  <["HA_TOKEN" := "secret"]>
  (<["HTTP_CONNECT_TYPE" := "http"]>
   (<["HA_IP" := "10.0.0.2"]>
    (<["HA_PORT" := "8123"]> ∅))).

(** A world with that environment. *)
Definition ha_world (net : nat -> list string -> proc_result) : world :=
  {| json_loads := Sample.loads;
     json_error := Sample.loads_error;
     repr_other := fun _ => "<object>";
     environ := ha_environ;
     transport := net |}.

End Scenario.

(** *** Outcomes *)


(** *** Requests *)

(** The address, the sink and the headers of a settings request (lines
    376-377 and 397-404). *)
Definition settings_endpoint (inverter_sn : string) : string :=
  "https://api.sunsynk.net/api/v1/common/setting/" +:+ inverter_sn +:+ "/set".

Definition settings_sink : string := "inverter_settings_response.json".

Definition settings_headers (W : world) (token : json)
    (settings_data : string) : list string :=
  ["Content-Type: application/json";
   "authorization: Bearer " +:+ py_str W token;
   "-d " +:+ settings_data].

(** The command line of every settings request made while the module
    token is [token]. *)
Definition settings_curl_cmd (W : world) (inverter_sn settings_data : string)
    (token : json) : list string :=
  curl_cmd "POST" (settings_endpoint inverter_sn) settings_sink
    (settings_headers W token settings_data)
    (extract_data "POST" (settings_headers W token settings_data)).



(** A header that carries the request body (lines 205-207). *)
Definition is_data_header (header : string) : bool :=
  Py.startswith header "-d ".

(** The address [ha_api_call] builds from the environment; a variable
    that is not set appears as the text None. *)
Definition ha_url (W : world) (endpoint : string) : string :=
  fmt_getenv W "HTTP_CONNECT_TYPE" +:+ "://" +:+ fmt_getenv W "HA_IP"
  +:+ ":" +:+ fmt_getenv W "HA_PORT" +:+ endpoint.

(** *** Files, transport calls, waits and output *)

(** A computation that leaves the file at [path] as it found it. *)
Definition preserves_file (path : string) {A} (m : M A) : Prop :=
  forall s, files (snd (m s)) !! path = files s !! path.

(** The files an operation may write: its response sink, unless that is
    the discard sink. *)
Definition written_by (op : operation) : list string :=
  List.filter (fun sink => negb (String.eqb sink "/dev/null"))
    match op with
    | OpGetAuthToken => ["token.json"]
    | OpValidateToken => []
    | OpApiCall _ _ output_file _ => [output_file]
    | OpSunsynkApiCall _ output_file => [output_file]
    | OpHaApiCall _ _ _ output_file => [output_file]
    | OpSendInverterSettings _ _ => ["inverter_settings_response.json"]
    end.

(** The seconds waited in all. *)
Definition total_wait (waits : list Z) : Z := foldr Z.add 0 waits.

(** A computation that makes no transport call and does not wait. *)
Definition quiet {A} (m : M A) : Prop :=
  forall s,
    curl_calls (snd (m s)) = curl_calls s /\ slept (snd (m s)) = slept s.

(** A computation that adds at most [n] transport calls to the ones made
    before it, waits a positive time at each of its waits and at most
    [w] seconds in all, and whose value, if it returns one, satisfies
    [Q]. *)
Definition spends {A} (Q : A -> Prop) (n : nat) (w : Z) (m : M A) : Prop :=
  forall s,
    exists (calls : list (list string)) (waits : list Z),
      curl_calls (snd (m s)) = (calls ++ curl_calls s)%list
      /\ (length calls <= n)%nat
      /\ slept (snd (m s)) = (waits ++ slept s)%list
      /\ Forall (fun z => 0 < z) waits
      /\ total_wait waits <= w
      /\ match fst (m s) with
         | Ret a => Q a
         | _ => True
         end.

(** The most transport calls an operation makes and the most seconds it
    waits: [api_call] makes at most 3 calls with 5 seconds between two;
    [send_inverter_settings] makes 3 rounds of it with 30 seconds
    between two; [get_auth_token] makes 3 rounds and waits 30 seconds
    after each. *)
Definition budget (op : operation) : nat * Z :=
  match op with
  | OpValidateToken => (0%nat, 0)
  | OpApiCall _ _ _ _ | OpSunsynkApiCall _ _ | OpHaApiCall _ _ _ _ =>
      (3%nat, 10)
  | OpSendInverterSettings _ _ => (9%nat, 90)
  | OpGetAuthToken => (9%nat, 120)
  end.

(** The seconds an iteration of [send_inverter_settings] may wait: the
    waits of [api_call], and the retry delay unless the attempt is the
    last. *)
Definition settings_wait_at (retry_count : Z) : Z :=
  if Z.ltb (retry_count + 1) DEFAULT_MAX_RETRIES then 40 else 10.

(** A computation that prints nothing. *)
Definition silent {A} (m : M A) : Prop :=
  forall s, printed (snd (m s)) = printed s.

(** Verbose output is on: [ENABLE_VERBOSE_LOG] is the string true. *)
Definition verbose (W : world) : Prop :=
  os_getenv W "ENABLE_VERBOSE_LOG" = Some "true".

(** * Properties *)

(** ** The embedding on concrete inputs *)

Example contains_inside : Py.contains "json" "application/json" = true.
Proof. reflexivity. Qed.

Example contains_absent : Py.contains "xml" "application/json" = false.
Proof. reflexivity. Qed.

Example slice_from_data : Py.slice_from 3 "-d {}" = "{}".
Proof. reflexivity. Qed.

Example truthy_values :
  map Py.truthy
    [JNull; JBool false; JInt 0; JFloat 0%float; JStr ""; JArr []; JObj ∅;
     JInt 1; JFloat 1%float; JStr "0"; JArr [JNull]; JBool true]
  = [false; false; false; false; false; false; false;
     true; true; true; true; true].
Proof. vm_compute. reflexivity. Qed.

Example eq_str_is_typed :
  map (fun v => Py.eq_str v "true")
    [JStr "true"; JBool true; JInt 1; JStr "True"]
  = [true; false; false; false].
Proof. reflexivity. Qed.

Example extract_data_post :
  extract_data "POST" ["Content-Type: application/json"; "-d {}"; "-d x"]
  = "{}".
Proof. reflexivity. Qed.

Example extract_data_get :
  extract_data "GET" ["Content-Type: application/json"; "-d {}"] = "".
Proof. reflexivity. Qed.

Example curl_cmd_post :
  curl_cmd "POST" "https://host/path" "out.json"
    ["Content-Type: application/json"; "-d {}"] "{}"
  = ["curl"; "-s"; "-f"; "-S"; "-k"; "-X"; "POST";
     "-H"; "Content-Type: application/json"; "-d"; "{}";
     "https://host/path"; "-o"; "out.json"].
Proof. reflexivity. Qed.

Example token_request_data_unset_credentials :
  token_request_data Sample.always_fails
  = "-d {" +:+ Py.quoted "areaCode" +:+ ": " +:+ Py.quoted "sunsynk"
    +:+ "," +:+ Py.quoted "client_id" +:+ ": " +:+ Py.quoted "csp-web"
    +:+ "," +:+ Py.quoted "grant_type" +:+ ": " +:+ Py.quoted "password"
    +:+ "," +:+ Py.quoted "password" +:+ ": " +:+ Py.quoted "None"
    +:+ "," +:+ Py.quoted "source" +:+ ": " +:+ Py.quoted "sunsynk"
    +:+ "," +:+ Py.quoted "username" +:+ ": " +:+ Py.quoted "None" +:+ "}".
Proof. reflexivity. Qed.

(** A GET that is answered at once: one transport call, no wait, and the
    sink holds the response. *)
Example api_call_answered_at_once :
  Sample.summary
    (api_call (Sample.always_answers Sample.body_true) "GET"
       "https://api.sunsynk.net/api/v1/inverters" "inverters.json"
       ["Content-Type: application/json"] (initial_state ∅))
  = (Ret 0, 1%nat, [], Some (JStr ""), false).
Proof. vm_compute. reflexivity. Qed.

(** Two empty responses and then a body: status 0 at the third attempt. *)
Example api_call_answered_at_third_attempt :
  Sample.summary
    (api_call
       (Sample.world_with (fun n _ =>
          match n with
          | 0%nat | 1%nat => Exited 0 (Some "")
          | _ => Exited 0 (Some Sample.body_true)
          end))
       "GET" "https://api.sunsynk.net/api/v1/inverters" "inverters.json"
       ["Content-Type: application/json"] (initial_state ∅))
  = (Ret 0, 3%nat, [5; 5], Some (JStr ""), false).
Proof. vm_compute. reflexivity. Qed.

(** The discard sink is never inspected. *)
Example ha_api_call_discard_sink :
  Sample.summary
    (ha_api_call
       {| json_loads := Sample.loads;
          json_error := Sample.loads_error;
          repr_other := fun _ => "<object>";
          environ := {[ "HA_TOKEN" := "secret" ]};
          transport := fun _ _ => Exited 0 None |}
       "/api/states/sensor.x" "POST" "{}" "/dev/null" (initial_state ∅))
  = (Ret 0, 1%nat, [], Some (JStr ""), false).
Proof. vm_compute. reflexivity. Qed.

(** ** The module namespace is a frame of every operation *)

Create HintDb frame discriminated.

Section Frame.

Variable W : world.

Lemma pg_ret {A} (a : A) : preserves_globals (ret a).
Proof. now intros s. Qed.

Lemma pg_raise {A} (e : exn) : preserves_globals (@raise A e).
Proof. now intros s. Qed.

Lemma pg_out_of_fuel {A} : preserves_globals (@out_of_fuel A).
Proof. now intros s. Qed.

Lemma pg_bind {A B} (m : M A) (k : A -> M B) :
  preserves_globals m -> (forall a, preserves_globals (k a)) ->
  preserves_globals (bind m k).
Proof.
  intros Hm Hk s. unfold bind. specialize (Hm s).
  destruct (m s) as [[a | e |] s']; simpl in *; try assumption.
  now rewrite Hk.
Qed.

Lemma pg_gets {A} (f : state -> A) : preserves_globals (gets f).
Proof. now intros s. Qed.

Lemma pg_log_message level msg : preserves_globals (log_message level msg).
Proof. now intros s. Qed.

Lemma pg_time_sleep d : preserves_globals (time_sleep d).
Proof. now intros s. Qed.

Lemma pg_print line : preserves_globals (print line).
Proof. now intros s. Qed.

Lemma pg_subprocess_call cmd : preserves_globals (subprocess_call W cmd).
Proof.
  intros s. unfold subprocess_call, curl_effect.
  destruct (transport W _ cmd) as [code [content |] |]; simpl; try reflexivity.
  now destruct (String.eqb _ _).
Qed.

Lemma pg_os_path_exists path : preserves_globals (os_path_exists path).
Proof. now intros s. Qed.

Lemma pg_os_stat_size path : preserves_globals (os_stat_size path).
Proof. intros s. unfold os_stat_size. now destruct (files s !! path). Qed.

Lemma pg_read_text path : preserves_globals (read_text path).
Proof. intros s. unfold read_text. now destruct (files s !! path). Qed.

Lemma pg_try_json_load path : preserves_globals (try_json_load W path).
Proof. now intros s. Qed.

Lemma pg_py_get obj key default : preserves_globals (py_get obj key default).
Proof.
  unfold py_get. destruct obj; try apply pg_raise.
  destruct (_ !! key); apply pg_ret.
Qed.

Lemma pg_py_len obj : preserves_globals (py_len obj).
Proof.
  unfold py_len. destruct (Py.len obj); [apply pg_ret | apply pg_raise].
Qed.

Lemma pg_load_global name : preserves_globals (load_global name).
Proof. intros s. unfold load_global. now destruct (globals s !! name). Qed.

(** Assigning a name that is not declared [global] binds a local. *)
Lemma pg_store_name decls locals name v :
  name ∉ decls -> preserves_globals (store_name decls locals name v).
Proof.
  intros Hname. unfold store_name.
  rewrite bool_decide_eq_false_2 by assumption. apply pg_ret.
Qed.

Lemma pg_load_name decls locals name :
  preserves_globals (load_name decls locals name).
Proof.
  unfold load_name. destruct (bool_decide _); [apply pg_load_global |].
  destruct (locals !! name); [apply pg_ret | apply pg_raise].
Qed.

Lemma pg_while_loop {St R} fuel cond (body : St -> M (St + R)) after st :
  (forall st, preserves_globals (body st)) ->
  (forall st, preserves_globals (after st)) ->
  preserves_globals (while_loop fuel cond body after st).
Proof.
  intros Hbody Hafter. revert st.
  induction fuel as [| fuel IH]; intros st; simpl.
  - apply pg_out_of_fuel.
  - destruct (cond st); [| apply Hafter].
    apply pg_bind; [apply Hbody |].
    intros [st' | v]; [apply IH | apply pg_ret].
Qed.

End Frame.

#[export] Hint Resolve pg_ret pg_raise pg_out_of_fuel pg_gets pg_log_message
  pg_time_sleep pg_print pg_subprocess_call pg_os_path_exists pg_os_stat_size
  pg_read_text pg_try_json_load pg_py_get pg_py_len pg_load_global
  pg_load_name : frame.

(** Walks down a computation built from the primitives: sequencing,
    branching and loops preserve the frame when their parts do. *)
Ltac frame_walk :=
  repeat first
    [ progress auto with frame
    | apply pg_bind; [| intros ?]
    | apply pg_while_loop; intros ?
    | match goal with
      | |- preserves_globals (if ?b then _ else _) => destruct b
      | |- preserves_globals (match ?x with _ => _ end) => destruct x
      | |- preserves_globals (continue_with _) => apply pg_ret
      | |- preserves_globals (return_ _) => apply pg_ret
      end ].

Section FrameOfOperations.

Variable W : world.

Lemma pg_api_call method url output_file headers :
  preserves_globals (api_call W method url output_file headers).
Proof. unfold api_call, api_call_body, api_call_after. frame_walk. Qed.

Lemma pg_assign locals name v : preserves_globals (assign locals name v).
Proof.
  apply pg_store_name. unfold get_auth_token_global_decls.
  apply not_elem_of_nil.
Qed.

Lemma pg_token_check locals : preserves_globals (token_check locals).
Proof. unfold token_check, lookup_name. frame_walk. Qed.

Lemma pg_get_auth_token : preserves_globals (get_auth_token W).
Proof.
  pose proof pg_api_call. pose proof pg_assign. pose proof pg_token_check.
  unfold get_auth_token, get_auth_token_body, get_auth_token_after,
    lookup_name.
  frame_walk.
Qed.

Lemma pg_validate_token : preserves_globals validate_token.
Proof. unfold validate_token. frame_walk. Qed.

Lemma pg_sunsynk_api_call endpoint output_file :
  preserves_globals (sunsynk_api_call W endpoint output_file).
Proof. pose proof pg_api_call. unfold sunsynk_api_call. frame_walk. Qed.

Lemma pg_ha_api_call endpoint method data output_file :
  preserves_globals (ha_api_call W endpoint method data output_file).
Proof. pose proof pg_api_call. unfold ha_api_call. frame_walk. Qed.

Lemma pg_send_inverter_settings inverter_sn settings_data :
  preserves_globals (send_inverter_settings W inverter_sn settings_data).
Proof.
  pose proof pg_api_call.
  unfold send_inverter_settings, send_inverter_settings_body,
    send_inverter_settings_after, settings_retry.
  frame_walk.
Qed.

Lemma pg_run op : preserves_globals (run W op).
Proof.
  destruct op; simpl.
  - apply pg_get_auth_token.
  - apply pg_validate_token.
  - apply pg_api_call.
  - apply pg_sunsynk_api_call.
  - apply pg_ha_api_call.
  - apply pg_send_inverter_settings.
Qed.

End FrameOfOperations.

(** ** Evaluating the operations on a partly known world *)

#[local] Arguments while_loop : simpl never.
#[local] Arguments pretty : simpl never.
#[local] Arguments String.append : simpl never.

Ltac unfold_effects :=
  unfold os_path_exists, os_stat_size, read_text, try_json_load, py_get,
    py_len, load_global, subprocess_call, log_message, time_sleep, print,
    continue_with, return_, bind, ret, raise, modify, gets, out_of_fuel.

Lemma advanced_refl s : advanced s s [] [].
Proof. now unfold advanced. Qed.

Lemma advanced_trans s s1 s2 c1 z1 c2 z2 :
  advanced s s1 c1 z1 -> advanced s1 s2 c2 z2 ->
  advanced s s2 (c2 ++ c1) (z2 ++ z1).
Proof.
  unfold advanced. intros (Hc1 & Hz1 & Hg1) (Hc2 & Hz2 & Hg2).
  rewrite Hc2, Hc1, Hz2, Hz1, Hg2, Hg1, <- !app_assoc. auto.
Qed.

Lemma while_loop_step {St R} fuel cond (body : St -> M (St + R)) after st :
  while_loop (S fuel) cond body after st =
  if cond st then
    bind (body st)
      (fun r => match r with
                | inl st' => while_loop fuel cond body after st'
                | inr v => ret v
                end)
  else after st.
Proof. reflexivity. Qed.

Lemma while_loop_enter {St R} fuel cond (body : St -> M (St + R)) after st :
  cond st = true ->
  while_loop (S fuel) cond body after st =
  bind (body st)
    (fun r => match r with
              | inl st' => while_loop fuel cond body after st'
              | inr v => ret v
              end).
Proof. intros H. now rewrite while_loop_step, H. Qed.

Lemma while_loop_leave {St R} fuel cond (body : St -> M (St + R)) after st :
  cond st = false -> while_loop (S fuel) cond body after st = after st.
Proof. intros H. now rewrite while_loop_step, H. Qed.

Lemma bind_ret_eq {A B} (m : M A) (k : A -> M B) s a s' :
  m s = (Ret a, s') -> bind m k s = k a s'.
Proof. intros H. unfold bind. now rewrite H. Qed.

Lemma bind_raise_eq {A B} (m : M A) (k : A -> M B) s e s' :
  m s = (Raise e, s') -> bind m k s = (Raise e, s').
Proof. intros H. unfold bind. now rewrite H. Qed.

Lemma eqb_string_false (a b : string) : a <> b -> String.eqb a b = false.
Proof. apply String.eqb_neq. Qed.

Lemma size_eqb_0_false (body : string) :
  body <> "" -> Z.eqb (Z.of_nat (String.length body)) 0 = false.
Proof.
  destruct body as [| c body]; [congruence |]. intros _.
  apply Z.eqb_neq. simpl String.length. lia.
Qed.

Section EvalApiCall.

Variable W : world.
Variables method url out : string.
Variable headers : list string.

Lemma sink_of_curl_cmd data :
  sink_of (curl_cmd method url out headers data) = out.
Proof.
  unfold sink_of, curl_cmd.
  change [url; "-o"; out] with ([url; "-o"] ++ [out])%list.
  rewrite !app_assoc. apply last_last.
Qed.

(** An attempt that curl reports successful and that left a non-empty
    sink ends the call with status 0. *)
Lemma api_call_body_answered data rc s body :
  out <> "/dev/null" -> body <> "" ->
  transport W (length (curl_calls s))
    (curl_cmd method url out headers data) = Exited 0 (Some body) ->
  api_call_body W method url out headers data rc s =
  (Ret (inr 0),
   set_files (<[out := body]> (files s))
     (push_curl_call (curl_cmd method url out headers data) s)).
Proof.
  intros Hout Hbody Hnet. unfold api_call_body. unfold_effects.
  rewrite Hnet. unfold curl_effect.
  rewrite sink_of_curl_cmd, (eqb_string_false _ _ Hout). simpl.
  rewrite lookup_insert_eq. simpl.
  now rewrite size_eqb_0_false.
Qed.

(** An attempt that curl reports failed counts as one retry; the call
    waits 5 seconds unless it was the last attempt. *)
Lemma api_call_body_failed data rc s code written :
  code <> 0 ->
  transport W (length (curl_calls s))
    (curl_cmd method url out headers data) = Exited code written ->
  exists s',
    api_call_body W method url out headers data rc s
    = (Ret (inl (rc + 1)), s')
    /\ files s'
       = files (curl_effect (curl_cmd method url out headers data) written s)
    /\ advanced s s' [curl_cmd method url out headers data]
         (if Z.ltb (rc + 1) DEFAULT_MAX_RETRIES then [5] else []).
Proof.
  intros Hcode Hnet. unfold api_call_body. unfold_effects.
  rewrite Hnet. apply Z.eqb_neq in Hcode. rewrite Hcode.
  assert (Hcalls : forall w,
    curl_calls (curl_effect (curl_cmd method url out headers data) w s)
    = curl_cmd method url out headers data :: curl_calls s
    /\ slept (curl_effect (curl_cmd method url out headers data) w s)
       = slept s
    /\ globals (curl_effect (curl_cmd method url out headers data) w s)
       = globals s).
  { intros [content |]; unfold curl_effect; simpl; [| easy].
    now destruct (String.eqb _ _). }
  destruct (Hcalls written) as (Hc & Hz & Hg).
  destruct (Z.ltb (rc + 1) DEFAULT_MAX_RETRIES); simpl;
    eexists; (split; [reflexivity |]); simpl;
    unfold advanced; simpl; rewrite Hc, Hz, Hg; auto.
Qed.

(** An attempt that curl reports successful and that left an empty sink
    counts as one retry, unless it was the last attempt: then the call
    ends with status 0. *)
Lemma api_call_body_empty data rc s :
  out <> "/dev/null" ->
  transport W (length (curl_calls s))
    (curl_cmd method url out headers data) = Exited 0 (Some "") ->
  exists s',
    api_call_body W method url out headers data rc s
    = (Ret (if Z.ltb (rc + 1) DEFAULT_MAX_RETRIES then inl (rc + 1)
            else inr 0), s')
    /\ files s' = <[out := ""]> (files s)
    /\ advanced s s' [curl_cmd method url out headers data]
         (if Z.ltb (rc + 1) DEFAULT_MAX_RETRIES then [5] else []).
Proof.
  intros Hout Hnet. unfold api_call_body. unfold_effects.
  rewrite Hnet. unfold curl_effect.
  rewrite sink_of_curl_cmd, (eqb_string_false _ _ Hout). simpl.
  rewrite lookup_insert_eq. simpl.
  destruct (Z.ltb (rc + 1) DEFAULT_MAX_RETRIES); simpl;
    eexists; (split; [reflexivity |]); simpl; unfold advanced; auto.
Qed.

End EvalApiCall.

Section EvalApiCallLoop.

Variable W : world.
Variables method url out : string.
Variable headers : list string.

Let cmd := curl_cmd method url out headers (extract_data method headers).

(** Answered at the first attempt: status 0 after one transport call. *)
Lemma api_call_answered s body :
  out <> "/dev/null" -> body <> "" ->
  transport W (length (curl_calls s)) cmd = Exited 0 (Some body) ->
  api_call W method url out headers s =
  (Ret 0, set_files (<[out := body]> (files s)) (push_curl_call cmd s)).
Proof.
  intros Hout Hbody Hnet. unfold api_call.
  change (retry_fuel 0) with 4%nat.
  rewrite while_loop_enter by reflexivity.
  erewrite bind_ret_eq by (eapply api_call_body_answered; eassumption).
  reflexivity.
Qed.

(** Failing three times: status 1 after exactly three transport calls
    and two waits of 5 seconds. *)
Lemma api_call_all_failed s :
  transport_always_fails W ->
  exists s',
    api_call W method url out headers s = (Ret 1, s')
    /\ files s' = files s
    /\ advanced s s' [cmd; cmd; cmd] [5; 5].
Proof.
  intros Hnet. unfold api_call. change (retry_fuel 0) with 4%nat.
  destruct (Hnet (length (curl_calls s)) cmd) as (c1 & Hc1 & H1).
  destruct (api_call_body_failed W method url out headers _ 0 s c1 None Hc1 H1)
    as (s1 & E1 & F1 & A1).
  destruct (Hnet (length (curl_calls s1)) cmd) as (c2 & Hc2 & H2).
  destruct (api_call_body_failed W method url out headers _ 1 s1 c2 None Hc2 H2)
    as (s2 & E2 & F2 & A2).
  destruct (Hnet (length (curl_calls s2)) cmd) as (c3 & Hc3 & H3).
  destruct (api_call_body_failed W method url out headers _ 2 s2 c3 None Hc3 H3)
    as (s3 & E3 & F3 & A3).
  rewrite while_loop_enter by reflexivity.
  rewrite (bind_ret_eq _ _ _ _ _ E1).
  rewrite while_loop_enter by reflexivity.
  rewrite (bind_ret_eq _ _ _ _ _ E2).
  rewrite while_loop_enter by reflexivity.
  rewrite (bind_ret_eq _ _ _ _ _ E3).
  rewrite while_loop_leave by reflexivity.
  unfold api_call_after. unfold_effects. simpl.
  eexists. split; [reflexivity |]. simpl. split.
  - unfold curl_effect in F1, F2, F3. simpl in F1, F2, F3.
    now rewrite F3, F2, F1.
  - pose proof (advanced_trans _ _ _ _ _ _ _
                  (advanced_trans _ _ _ _ _ _ _ A1 A2) A3) as A.
    unfold advanced in *. simpl in *. exact A.
Qed.

(** Three empty responses: status 0 after exactly three transport calls
    and two waits of 5 seconds, the sink being empty. *)
Lemma api_call_all_empty s :
  out <> "/dev/null" ->
  transport_always_empty W ->
  exists s',
    api_call W method url out headers s = (Ret 0, s')
    /\ files s' !! out = Some ""
    /\ advanced s s' [cmd; cmd; cmd] [5; 5].
Proof.
  intros Hout Hnet. unfold api_call. change (retry_fuel 0) with 4%nat.
  destruct (api_call_body_empty W method url out headers
              (extract_data method headers) 0 s Hout (Hnet _ _))
    as (s1 & E1 & F1 & A1).
  destruct (api_call_body_empty W method url out headers
              (extract_data method headers) 1 s1 Hout (Hnet _ _))
    as (s2 & E2 & F2 & A2).
  destruct (api_call_body_empty W method url out headers
              (extract_data method headers) 2 s2 Hout (Hnet _ _))
    as (s3 & E3 & F3 & A3).
  simpl in E1, E2, E3, A1, A2, A3.
  rewrite while_loop_enter by reflexivity.
  rewrite (bind_ret_eq _ _ _ _ _ E1).
  rewrite while_loop_enter by reflexivity.
  rewrite (bind_ret_eq _ _ _ _ _ E2).
  rewrite while_loop_enter by reflexivity.
  rewrite (bind_ret_eq _ _ _ _ _ E3).
  exists s3. split; [reflexivity |]. split.
  - rewrite F3. apply lookup_insert_eq.
  - pose proof (advanced_trans _ _ _ _ _ _ _
                  (advanced_trans _ _ _ _ _ _ _ A1 A2) A3) as A.
    unfold advanced in *. simpl in *. exact A.
Qed.

End EvalApiCallLoop.

Section EvalGetAuthToken.

Variable W : world.
Hypothesis Hnet : transport_always_fails W.

(** One round of [get_auth_token] over a failing transport and no
    response file: three transport calls, then a wait of 30 seconds. *)
Lemma get_auth_token_body_failed st s :
  files s !! "token.json" = None ->
  exists s',
    get_auth_token_body W "token.json" st s
    = (Ret (inl (fst st + 1, snd st)), s')
    /\ files s' = files s
    /\ advanced s s'
         [token_curl_cmd W; token_curl_cmd W; token_curl_cmd W] [30; 5; 5].
Proof.
  intros Hfile. unfold get_auth_token_body.
  destruct (api_call_all_failed W "POST" "https://api.sunsynk.net/oauth/token"
              "token.json"
              ["Content-Type: application/json"; token_request_data W] s Hnet)
    as (s1 & E & F & A).
  rewrite (bind_ret_eq _ _ _ _ _ E).
  change (Py.truthy (JInt 1)) with true. cbv iota.
  unfold_effects. rewrite F, Hfile. simpl.
  eexists. split; [reflexivity |]. simpl. split; [assumption |].
  unfold advanced in *. simpl. destruct A as (Ac & Az & Ag).
  rewrite Ac, Az, Ag. auto.
Qed.

Lemma get_auth_token_failed s :
  files s !! "token.json" = None ->
  exists s',
    get_auth_token W s = (Ret 1, s')
    /\ files s' = files s
    /\ advanced s s' (replicate 9 (token_curl_cmd W))
         [30; 5; 5; 30; 5; 5; 30; 5; 5].
Proof.
  intros Hfile. unfold get_auth_token.
  set (s0 := push_logged
    ("INFO", "Getting bearer token from solar service provider's API.") s).
  assert (H0 : files s0 !! "token.json" = None) by exact Hfile.
  destruct (get_auth_token_body_failed (0, ∅) s0 H0) as (s1 & E1 & F1 & A1).
  assert (H1 : files s1 !! "token.json" = None) by now rewrite F1.
  destruct (get_auth_token_body_failed (0 + 1, ∅) s1 H1)
    as (s2 & E2 & F2 & A2).
  assert (H2 : files s2 !! "token.json" = None) by now rewrite F2.
  destruct (get_auth_token_body_failed (0 + 1 + 1, ∅) s2 H2)
    as (s3 & E3 & F3 & A3).
  simpl in E1, E2, E3.
  change (retry_fuel 0) with 4%nat.
  unfold bind at 1. unfold log_message at 1, modify. fold s0.
  rewrite while_loop_enter by reflexivity.
  rewrite (bind_ret_eq _ _ _ _ _ E1).
  rewrite while_loop_enter by reflexivity.
  rewrite (bind_ret_eq _ _ _ _ _ E2).
  rewrite while_loop_enter by reflexivity.
  rewrite (bind_ret_eq _ _ _ _ _ E3).
  rewrite while_loop_leave by reflexivity.
  unfold get_auth_token_after. simpl. unfold_effects. simpl.
  eexists. split; [reflexivity |]. simpl. split.
  - now rewrite F3, F2, F1.
  - pose proof (advanced_trans _ _ _ _ _ _ _
                  (advanced_trans _ _ _ _ _ _ _ A1 A2) A3) as A.
    unfold advanced in *. simpl in *. exact A.
Qed.

End EvalGetAuthToken.

Section EvalGetAuthTokenAnswered.

Variable W : world.
Hypothesis Hnet : transport_always_answers W.

(** One round of [get_auth_token] over an answering transport: the
    status 0 of [api_call] is tested for truth, so the round takes the
    error branch, waits 30 seconds and counts as a retry. The response
    is not read. *)
Lemma get_auth_token_body_answered st s :
  exists s',
    get_auth_token_body W "token.json" st s
    = (Ret (inl (fst st + 1, snd st)), s')
    /\ advanced s s' [token_curl_cmd W] [30].
Proof.
  unfold get_auth_token_body.
  destruct (Hnet (length (curl_calls s)) (token_curl_cmd W))
    as (body & Hbody & Hcall).
  erewrite bind_ret_eq
    by (apply api_call_answered; [discriminate | exact Hbody | exact Hcall]).
  change (Py.truthy (JInt 0)) with false. cbv iota.
  unfold_effects. eexists. split; [reflexivity |].
  unfold advanced. simpl. auto.
Qed.

(** Over an answering transport [get_auth_token] returns 1, whatever
    the responses say, after three transport calls. *)
Lemma get_auth_token_answered s :
  exists s',
    get_auth_token W s = (Ret 1, s')
    /\ advanced s s' (replicate 3 (token_curl_cmd W)) [30; 30; 30].
Proof.
  unfold get_auth_token.
  set (s0 := push_logged
    ("INFO", "Getting bearer token from solar service provider's API.") s).
  destruct (get_auth_token_body_answered (0, ∅) s0) as (s1 & E1 & A1).
  destruct (get_auth_token_body_answered (0 + 1, ∅) s1) as (s2 & E2 & A2).
  destruct (get_auth_token_body_answered (0 + 1 + 1, ∅) s2) as (s3 & E3 & A3).
  simpl in E1, E2, E3.
  change (retry_fuel 0) with 4%nat.
  unfold bind at 1. unfold log_message at 1, modify. fold s0.
  rewrite while_loop_enter by reflexivity.
  rewrite (bind_ret_eq _ _ _ _ _ E1).
  rewrite while_loop_enter by reflexivity.
  rewrite (bind_ret_eq _ _ _ _ _ E2).
  rewrite while_loop_enter by reflexivity.
  rewrite (bind_ret_eq _ _ _ _ _ E3).
  rewrite while_loop_leave by reflexivity.
  unfold get_auth_token_after. simpl. unfold_effects. simpl.
  eexists. split; [reflexivity |].
  pose proof (advanced_trans _ _ _ _ _ _ _
                (advanced_trans _ _ _ _ _ _ _ A1 A2) A3) as A.
  unfold advanced in *. simpl in *. exact A.
Qed.

End EvalGetAuthTokenAnswered.

Section EvalSendInverterSettings.

Variable W : world.
Variables inverter_sn settings_data endpoint : string.

Let out := "inverter_settings_response.json".


End EvalSendInverterSettings.

(** ** The loop fuel is never exhausted *)

Create HintDb total discriminated.

Section Totality.

Variable W : world.

Lemma ror_ret {A} (Q : A -> Prop) a : Q a -> returns_or_raises Q (ret a).
Proof. now intros H s. Qed.

Lemma ror_raise {A} (Q : A -> Prop) e : returns_or_raises Q (raise e).
Proof. now intros s. Qed.

Lemma ror_bind {A B} (P : A -> Prop) (Q : B -> Prop) m k :
  returns_or_raises P m -> (forall a, P a -> returns_or_raises Q (k a)) ->
  returns_or_raises Q (bind m k).
Proof.
  intros Hm Hk s. unfold bind. specialize (Hm s).
  destruct (m s) as [[a | e |] s']; simpl in *; try easy.
  now apply Hk.
Qed.

Lemma ror_seq {A B} (Q : B -> Prop) (m : M A) k :
  terminates m -> (forall a, returns_or_raises Q (k a)) ->
  returns_or_raises Q (bind m k).
Proof. intros Hm Hk. apply (ror_bind (fun _ => True)); auto. Qed.

Lemma ror_modify f : terminates (modify f).
Proof. now intros s. Qed.

Lemma ror_gets {A} (f : state -> A) : terminates (gets f).
Proof. now intros s. Qed.

Lemma ror_log_message level msg : terminates (log_message level msg).
Proof. now intros s. Qed.

Lemma ror_time_sleep d : terminates (time_sleep d).
Proof. now intros s. Qed.

Lemma ror_print line : terminates (print line).
Proof. now intros s. Qed.

Lemma ror_subprocess_call cmd : terminates (subprocess_call W cmd).
Proof. intros s. unfold subprocess_call. now destruct (transport W _ cmd). Qed.

Lemma ror_os_path_exists path : terminates (os_path_exists path).
Proof. now intros s. Qed.

Lemma ror_os_stat_size path : terminates (os_stat_size path).
Proof. intros s. unfold os_stat_size. now destruct (files s !! path). Qed.

Lemma ror_read_text path : terminates (read_text path).
Proof. intros s. unfold read_text. now destruct (files s !! path). Qed.

Lemma ror_try_json_load path : terminates (try_json_load W path).
Proof. now intros s. Qed.

Lemma ror_py_get obj key default : terminates (py_get obj key default).
Proof.
  unfold py_get. destruct obj; try apply ror_raise.
  destruct (_ !! key); now apply ror_ret.
Qed.

Lemma ror_py_len obj : terminates (py_len obj).
Proof.
  unfold py_len. destruct (Py.len obj); [now apply ror_ret | apply ror_raise].
Qed.

Lemma ror_load_global name : terminates (load_global name).
Proof. intros s. unfold load_global. now destruct (globals s !! name). Qed.

Lemma ror_store_name decls locals name v :
  terminates (store_name decls locals name v).
Proof.
  unfold store_name. destruct (bool_decide _); [| now apply ror_ret].
  apply ror_seq; [apply ror_modify | intros _; now apply ror_ret].
Qed.

Lemma ror_load_name decls locals name :
  terminates (load_name decls locals name).
Proof.
  unfold load_name. destruct (bool_decide _); [apply ror_load_global |].
  destruct (locals !! name); [now apply ror_ret | apply ror_raise].
Qed.

(** A retry loop whose iterations each add one to the counter or
    return ends within [retry_fuel]. *)
Lemma ror_retry_loop {St R} (count : St -> Z) (Q : R -> Prop)
    (body : St -> M (St + R)) after fuel st :
  (forall st, Z.ltb (count st) DEFAULT_MAX_RETRIES = true ->
     returns_or_raises
       (fun r => match r with
                 | inl st' => count st' = count st + 1
                 | inr v => Q v
                 end)
       (body st)) ->
  (forall st, returns_or_raises Q (after st)) ->
  (Z.to_nat (DEFAULT_MAX_RETRIES - count st) < fuel)%nat ->
  returns_or_raises Q
    (while_loop fuel (fun st => Z.ltb (count st) DEFAULT_MAX_RETRIES)
       body after st).
Proof.
  intros Hbody Hafter. revert st.
  induction fuel as [| fuel IH]; intros st Hfuel; [lia |].
  rewrite while_loop_step.
  destruct (Z.ltb (count st) DEFAULT_MAX_RETRIES) eqn:Hcond; [| apply Hafter].
  eapply ror_bind; [apply Hbody, Hcond |].
  intros [st' | v] Hr; [| now apply ror_ret].
  apply IH. apply Z.ltb_lt in Hcond. lia.
Qed.

End Totality.

#[export] Hint Resolve ror_raise ror_modify ror_gets ror_log_message
  ror_time_sleep ror_print ror_subprocess_call ror_os_path_exists
  ror_os_stat_size ror_read_text ror_try_json_load ror_py_get ror_py_len
  ror_load_global ror_store_name ror_load_name : total.

(** Walks down a computation: every leaf is a primitive, a [continue]
    that has counted the attempt, or a [return]. *)
Ltac total_walk :=
  repeat first
    [ progress auto with total
    | apply ror_seq; [| intros ?]
    | match goal with
      | |- returns_or_raises _ (if ?b then _ else _) => destruct b
      | |- returns_or_raises _ (match ?x with _ => _ end) => destruct x
      | |- returns_or_raises _ (continue_with _) =>
          apply ror_ret; simpl; reflexivity
      | |- returns_or_raises _ (return_ _) => apply ror_ret; exact I
      | |- returns_or_raises _ (ret _) => apply ror_ret; exact I
      end ].

Section TotalityOfOperations.

Variable W : world.

Lemma api_call_terminates method url output_file headers :
  terminates (api_call W method url output_file headers).
Proof.
  unfold api_call.
  apply (ror_retry_loop (fun rc : Z => rc)); [| | unfold retry_fuel; lia].
  - intros rc _. unfold api_call_body. total_walk.
  - intros rc. unfold api_call_after. total_walk.
Qed.

Lemma token_check_terminates locals : terminates (token_check locals).
Proof. unfold token_check, lookup_name. total_walk. Qed.

Lemma get_auth_token_terminates : terminates (get_auth_token W).
Proof.
  pose proof api_call_terminates. pose proof token_check_terminates.
  unfold get_auth_token. apply ror_seq; [auto with total | intros _].
  apply (ror_retry_loop (fun st : Z * gmap string json => fst st));
    [| | unfold retry_fuel; simpl; lia].
  - intros st _. unfold get_auth_token_body, assign, lookup_name.
    total_walk.
  - intros st. unfold get_auth_token_after. total_walk.
Qed.

Lemma validate_token_terminates : terminates validate_token.
Proof. unfold validate_token. total_walk. Qed.

Lemma sunsynk_api_call_terminates endpoint output_file :
  terminates (sunsynk_api_call W endpoint output_file).
Proof.
  pose proof api_call_terminates. unfold sunsynk_api_call. total_walk.
Qed.

Lemma ha_api_call_terminates endpoint method data output_file :
  terminates (ha_api_call W endpoint method data output_file).
Proof. pose proof api_call_terminates. unfold ha_api_call. total_walk. Qed.

Lemma send_inverter_settings_terminates inverter_sn settings_data :
  terminates (send_inverter_settings W inverter_sn settings_data).
Proof.
  pose proof api_call_terminates.
  unfold send_inverter_settings.
  destruct (_ || _); [total_walk |].
  destruct (json_loads W settings_data); [| total_walk].
  apply ror_seq; [auto with total | intros _].
  apply ror_seq; [total_walk | intros _].
  apply (ror_retry_loop (fun rc : Z => rc)); [| | unfold retry_fuel; lia].
  - intros rc _. unfold send_inverter_settings_body, settings_retry.
    total_walk.
  - intros rc. unfold send_inverter_settings_after. total_walk.
Qed.

(** Every operation returns a status or raises: the fuel of the model
    is never what ends a call. *)
Lemma run_terminates op : terminates (run W op).
Proof.
  destruct op; simpl.
  - apply get_auth_token_terminates.
  - apply validate_token_terminates.
  - apply api_call_terminates.
  - apply sunsynk_api_call_terminates.
  - apply ha_api_call_terminates.
  - apply send_inverter_settings_terminates.
Qed.

End TotalityOfOperations.

(** * The claims *)

(** ** Token acquisition *)

(** C1. The claim: when the first transport attempt succeeds with a body
    that decodes to an object with [success] the string true and
    [data.access_token] the string abc, [get_auth_token] returns success
    after one attempt and the process-wide token is abc and valid. The
    code does neither. In the world where every request is answered with
    that body, starting from the freshly imported module, the call
    returns 1 after three transport calls and three waits of 30 seconds,
    and the module variables still hold the empty string: line 33 tests
    the status of [api_call] for truth, and the status of success is 0.
    Where the response is inspected at all (the transport fails and an
    earlier response file is still there), the call returns 0 and the
    module variables are unchanged all the same, the assignments of
    lines 99-109 being local. *)
Theorem get_auth_token_first_valid_response :
  transport (Sample.always_answers Sample.body_token_ok) 0
    (token_curl_cmd (Sample.always_answers Sample.body_token_ok))
  = Exited 0 (Some Sample.body_token_ok)
  /\ json_loads (Sample.always_answers Sample.body_token_ok)
       Sample.body_token_ok
     = Some Sample.resp_token_ok
  /\ Sample.summary
       (get_auth_token (Sample.always_answers Sample.body_token_ok)
          (initial_state ∅))
     = (Ret 1, 3%nat, [30; 30; 30], Some (JStr ""), false)
  /\ Sample.summary
       (get_auth_token Sample.always_fails
          (initial_state {[ "token.json" := Sample.body_token_ok ]}))
     = (Ret 0, 3%nat, [5; 5], Some (JStr ""), false).
Proof. repeat split; vm_compute; reflexivity. Qed.

(** C3, as stated, fails: over a transport that fails on every attempt,
    [get_auth_token] does not stop after 3 transport calls. *)
Lemma get_auth_token_failing_transport_counterexample :
  transport_always_fails Sample.always_fails
  /\ ~ (fst (get_auth_token Sample.always_fails (initial_state ∅)) = Ret 1
        /\ length (curl_calls
                     (snd (get_auth_token Sample.always_fails
                             (initial_state ∅)))) = 3%nat).
Proof.
  split.
  - intros n cmd. exists 22. split; [lia | reflexivity].
  - intros [_ H]. vm_compute in H. discriminate H.
Qed.

(** C3, amended. Over a transport that fails on every attempt and leaves
    no response file, with no response file there to begin with,
    [get_auth_token] makes three rounds of [api_call], each of three
    transport calls: exactly nine POST requests, with waits of 5 seconds
    inside a round and of 30 seconds after it, and then returns 1. No
    round is spent on decoding. *)
Theorem get_auth_token_failing_transport (W : world) (s : state) :
  transport_always_fails W ->
  files s !! "token.json" = None ->
  fst (get_auth_token W s) = Ret 1
  /\ curl_calls (snd (get_auth_token W s))
     = (replicate 9 (token_curl_cmd W) ++ curl_calls s)%list
  /\ slept (snd (get_auth_token W s))
     = ([30; 5; 5; 30; 5; 5; 30; 5; 5] ++ slept s)%list.
Proof.
  intros Hnet Hfile.
  destruct (get_auth_token_failed W Hnet s Hfile)
    as (s' & E & _ & Hc & Hz & _).
  rewrite E. auto.
Qed.

(** The amended C3 on the freshly imported module, over the transport
    that always fails. *)
Lemma get_auth_token_failing_transport_witness :
  transport_always_fails Sample.always_fails
  /\ files (initial_state ∅) !! "token.json" = None
  /\ fst (get_auth_token Sample.always_fails (initial_state ∅)) = Ret 1
  /\ curl_calls (snd (get_auth_token Sample.always_fails (initial_state ∅)))
     = (replicate 9 (token_curl_cmd Sample.always_fails)
        ++ curl_calls (initial_state ∅))%list
  /\ slept (snd (get_auth_token Sample.always_fails (initial_state ∅)))
     = ([30; 5; 5; 30; 5; 5; 30; 5; 5] ++ slept (initial_state ∅))%list.
Proof.
  assert (H : transport_always_fails Sample.always_fails).
  { intros n cmd. exists 22. split; [lia | reflexivity]. }
  split; [exact H |]. split; [reflexivity |].
  apply (get_auth_token_failing_transport Sample.always_fails
           (initial_state ∅)); [exact H | reflexivity].
Defined.

(** The status of [validate_token] is read off the token value. *)
Lemma validate_token_status (s : state) :
  fst (validate_token s)
  = match token_value s with
    | Some v => if Py.truthy v then Ret 0 else Ret 1
    | None => Raise NameError
    end.
Proof.
  unfold validate_token, token_value. unfold_effects.
  destruct (globals s !! "SERVER_API_BEARER_TOKEN") as [v |]; [| reflexivity].
  now destruct (Py.truthy v).
Qed.

(** C10. Whatever the transport and the decoder do, [get_auth_token]
    leaves the module namespace, and with it
    [SERVER_API_BEARER_TOKEN], [SERVER_API_BEARER_TOKEN_SUCCESS] and
    [SERVER_API_BEARER_TOKEN_MSG], as it found it: its assignments bind
    local names. What the other functions read from the module after the
    call is what they read before it, and [validate_token] answers as it
    did before. *)
Theorem get_auth_token_leaves_module_variables (W : world) (s : state) :
  globals (snd (get_auth_token W s)) = globals s
  /\ token_value (snd (get_auth_token W s)) = token_value s
  /\ token_is_valid (snd (get_auth_token W s)) = token_is_valid s
  /\ (forall name,
        fst (load_global name (snd (get_auth_token W s)))
        = fst (load_global name s))
  /\ fst (validate_token (snd (get_auth_token W s))) = fst (validate_token s).
Proof.
  pose proof (pg_get_auth_token W s) as Hg.
  rewrite !validate_token_status.
  unfold token_value, token_is_valid, load_global.
  rewrite Hg. repeat split.
  intros name. now destruct (globals s !! name).
Qed.

(** A token is never acquired: after [get_auth_token] on the freshly
    imported module, [validate_token] fails. *)
Corollary validate_token_after_get_auth_token (W : world) fs :
  fst (validate_token (snd (get_auth_token W (initial_state fs)))) = Ret 1.
Proof.
  rewrite validate_token_status. unfold token_value.
  now rewrite (pg_get_auth_token W (initial_state fs)).
Qed.

(** ** Settings push *)

Section SettingsTwoAttempts.

Variable W : world.
Variables inverter_sn settings_data endpoint : string.


End SettingsTwoAttempts.



(** [send_inverter_settings] decodes the payload before anything else
    and catches [JSONDecodeError] only: whatever else the decoder
    raises escapes, before any transport call. *)
Lemma send_inverter_settings_decoder_raises
    (W : world) (inverter_sn settings_data : string) (s : state) :
  inverter_sn <> "" ->
  settings_data <> "" ->
  json_loads W settings_data = None ->
  json_error W settings_data <> JSONDecodeError ->
  send_inverter_settings W inverter_sn settings_data s
  = (Raise (json_error W settings_data), s).
Proof.
  intros Hsn Hdata Hloads Herror. unfold send_inverter_settings, Py.truthy.
  rewrite (eqb_string_false _ _ Hsn), (eqb_string_false _ _ Hdata), Hloads.
  simpl. destruct (json_error W settings_data); try reflexivity.
  contradiction.
Qed.


(** What the call does on that payload: it raises, and has made no
    transport call. *)
Example send_inverter_settings_deep_payload :
  Sample.summary
    (send_inverter_settings (Sample.always_answers Sample.body_true)
       "INV123456789" Sample.deep_payload (initial_state ∅))
  = (Raise RecursionError, 0%nat, [], Some (JStr ""), false).
Proof. vm_compute. reflexivity. Qed.



(** ** Authenticated reads *)

(** C7, as stated, fails: while the token held is marked invalid
    ([SERVER_API_BEARER_TOKEN_SUCCESS] is the string false) but is not
    empty, [sunsynk_api_call] does not fail fast: line 289 looks at the
    token value only, and the request is sent. *)
Lemma sunsynk_api_call_invalid_token_counterexample :
  token_is_valid Sample.state_with_invalid_token = false
  /\ ~ (fst (sunsynk_api_call (Sample.always_answers Sample.body_true)
               "inverters" "inverters.json" Sample.state_with_invalid_token)
        = Ret 1
        /\ curl_calls
             (snd (sunsynk_api_call (Sample.always_answers Sample.body_true)
                     "inverters" "inverters.json"
                     Sample.state_with_invalid_token))
           = curl_calls Sample.state_with_invalid_token).
Proof.
  split; [reflexivity |].
  intros [H _]. vm_compute in H. discriminate H.
Qed.

(** What the call does there: status 0 after one transport call. *)
Example sunsynk_api_call_invalid_token :
  Sample.summary
    (sunsynk_api_call (Sample.always_answers Sample.body_true)
       "inverters" "inverters.json" Sample.state_with_invalid_token)
  = (Ret 0, 1%nat, [], Some (JStr "abc"), false).
Proof. vm_compute. reflexivity. Qed.

(** C7, amended. While [SERVER_API_BEARER_TOKEN] is empty (or any other
    false value), whatever the validity flag says, [sunsynk_api_call]
    returns 1 without a transport call and without touching the module
    namespace: no token is fetched on the way. *)
Theorem sunsynk_api_call_without_token
    (W : world) (endpoint output_file : string) (s : state) (token : json) :
  token_value s = Some token ->
  Py.truthy token = false ->
  fst (sunsynk_api_call W endpoint output_file s) = Ret 1
  /\ curl_calls (snd (sunsynk_api_call W endpoint output_file s))
     = curl_calls s
  /\ slept (snd (sunsynk_api_call W endpoint output_file s)) = slept s
  /\ globals (snd (sunsynk_api_call W endpoint output_file s)) = globals s.
Proof.
  unfold token_value. intros Htok Hfalse. unfold sunsynk_api_call.
  destruct (negb _ || negb _); [now unfold_effects |].
  unfold_effects. rewrite Htok, Hfalse. now simpl.
Qed.

(** C7 on the freshly imported module, whose token is empty. *)
Lemma sunsynk_api_call_without_token_witness :
  token_value (initial_state ∅) = Some (JStr "")
  /\ Py.truthy (JStr "") = false
  /\ fst (sunsynk_api_call (Sample.always_answers Sample.body_true)
            "inverters" "inverters.json" (initial_state ∅)) = Ret 1
  /\ curl_calls (snd (sunsynk_api_call (Sample.always_answers Sample.body_true)
                        "inverters" "inverters.json" (initial_state ∅)))
     = curl_calls (initial_state ∅)
  /\ slept (snd (sunsynk_api_call (Sample.always_answers Sample.body_true)
                   "inverters" "inverters.json" (initial_state ∅)))
     = slept (initial_state ∅)
  /\ globals (snd (sunsynk_api_call (Sample.always_answers Sample.body_true)
                     "inverters" "inverters.json" (initial_state ∅)))
     = globals (initial_state ∅).
Proof.
  split; [reflexivity |]. split; [reflexivity |].
  apply (sunsynk_api_call_without_token
           (Sample.always_answers Sample.body_true)
           "inverters" "inverters.json" (initial_state ∅) (JStr ""));
    reflexivity.
Defined.

(** ** The token invariant *)

(** C8. Every operation preserves the invariant of the process-wide
    token: if a valid flag implies a non-empty value before the call, it
    does so after it, whatever the responses were (one with [success]
    true and no [access_token] among them). *)
Theorem token_invariant_preserved (W : world) (op : operation) (s : state) :
  token_invariant s -> token_invariant (snd (run W op s)).
Proof.
  unfold token_invariant, token_is_valid, token_nonempty, token_value.
  now rewrite (pg_run W op s).
Qed.

(** C8 from a state that holds a valid token, across a token request
    answered with [success] true and no [access_token]. *)
Lemma token_invariant_preserved_witness :
  token_invariant Sample.state_with_token
  /\ token_invariant
       (snd (run (Sample.always_answers Sample.body_true) OpGetAuthToken
               Sample.state_with_token)).
Proof.
  assert (H : token_invariant Sample.state_with_token).
  { intros _. vm_compute. reflexivity. }
  split; [exact H |].
  apply (token_invariant_preserved (Sample.always_answers Sample.body_true)
           OpGetAuthToken Sample.state_with_token).
  exact H.
Defined.

(** A response file with [success] true and no [access_token], inspected
    by [get_auth_token]: the call returns 1 and the token stays empty and
    not valid. *)
Example get_auth_token_success_without_access_token :
  Sample.summary
    (get_auth_token Sample.always_fails
       (initial_state {[ "token.json" := Sample.body_true ]}))
  = (Ret 1, 9%nat, [30; 5; 5; 30; 5; 5; 30; 5; 5], Some (JStr ""), false).
Proof. vm_compute. reflexivity. Qed.

(** The same round seen from inside: the names assigned by lines
    99-122 are bound in the local namespace of the call, where the
    success flag is true next to an empty token, and the round counts as
    a retry. *)
Example get_auth_token_body_binds_locals :
  fst (get_auth_token_body Sample.always_fails "token.json" (0, ∅)
         (initial_state {[ "token.json" := Sample.body_true ]}))
  = Ret (inl (1,
              <["SERVER_API_BEARER_TOKEN_MSG" := JStr "Unknown error"]>
              (<["SERVER_API_BEARER_TOKEN_SUCCESS" := JStr "true"]>
               (<["SERVER_API_BEARER_TOKEN" := JStr ""]> ∅)))).
Proof. vm_compute. reflexivity. Qed.

(** ** The retrying call *)

(** C2. The claim: a call whose every attempt succeeds with an empty
    sink returns the failure status once all attempts are spent. The code
    counts the first two empty responses as retries, waiting 5 seconds
    after each, but on the third falls through to [return 0] (line 252):
    the call returns 0 after three transport calls, with the sink still
    empty. *)
Theorem api_call_empty_sink_on_every_attempt :
  Sample.summary
    (api_call (Sample.always_answers "") "GET"
       "https://api.sunsynk.net/api/v1/inverters" "inverters.json"
       ["Content-Type: application/json"] (initial_state ∅))
  = (Ret 0, 3%nat, [5; 5], Some (JStr ""), false)
  /\ files (snd (api_call (Sample.always_answers "") "GET"
                   "https://api.sunsynk.net/api/v1/inverters" "inverters.json"
                   ["Content-Type: application/json"] (initial_state ∅)))
     !! "inverters.json" = Some "".
Proof. split; vm_compute; reflexivity. Qed.

(** C9. The claim: every operation returns a status and never raises.
    The code raises where it inspects the response file without having
    checked that it is there: [api_call], when curl exits with 0 and has
    left no sink, raises [FileNotFoundError] from [os.stat] (line 234).
    It also raises [AttributeError] where a decoded response is not an
    object (line 474: the body [null]). *)
Theorem api_call_raises_without_sink :
  fst (api_call Sample.succeeds_without_sink "GET"
         "https://api.sunsynk.net/api/v1/inverters" "inverters.json"
         ["Content-Type: application/json"] (initial_state ∅))
  = Raise FileNotFoundError
  /\ fst (send_inverter_settings (Sample.always_answers Sample.body_null)
            "INV123456789" Sample.settings (initial_state ∅))
     = Raise AttributeError.
Proof. split; vm_compute; reflexivity. Qed.

(** ** The success field *)

(** C4. The claim: the boolean true and the string true both count as
    business success. The code compares the field with the string true
    (lines 111 and 478), so the boolean true counts as failure: a
    settings push answered three times with [success] the boolean true
    returns 1 after three attempts, and the check of [get_auth_token]
    rejects the boolean true next to a non-empty token, where it accepts
    the string true. *)
Theorem boolean_true_counts_as_failure :
  json_loads (Sample.always_answers Sample.body_bool_true)
    Sample.body_bool_true
  = Some (JObj (<["success" := JBool true]> ∅))
  /\ Sample.summary
       (send_inverter_settings (Sample.always_answers Sample.body_bool_true)
          "INV123456789" Sample.settings (initial_state ∅))
     = (Ret 1, 3%nat, [30; 30], Some (JStr ""), false)
  /\ fst (token_check
            (<["SERVER_API_BEARER_TOKEN_SUCCESS" := JBool true]>
             (<["SERVER_API_BEARER_TOKEN" := JStr "abc"]> ∅))
            (initial_state ∅))
     = Ret false
  /\ fst (token_check
            (<["SERVER_API_BEARER_TOKEN_SUCCESS" := JStr "true"]>
             (<["SERVER_API_BEARER_TOKEN" := JStr "abc"]> ∅))
            (initial_state ∅))
     = Ret true
  /\ Sample.summary
       (get_auth_token Sample.always_fails
          (initial_state {[ "token.json" := Sample.body_token_bool ]}))
     = (Ret 1, 9%nat, [30; 5; 5; 30; 5; 5; 30; 5; 5], Some (JStr ""), false).
Proof. repeat split; vm_compute; reflexivity. Qed.

(** * Further properties *)

(** ** The attempts of [api_call] *)

Section ApiCallAttempts.

Variable W : world.
Variables method url out : string.
Variable headers : list string.

Let cmd := curl_cmd method url out headers (extract_data method headers).

(** What one attempt does, whatever the transport does: one transport
    call; a wait of 5 seconds exactly when the attempt is counted as a
    retry that is not the last; the only status it ends the call with is
    0, it does not wait before an exception escapes, and the only file
    it may touch is the sink. *)
Lemma api_call_body_spec rc s :
  curl_calls (snd (api_call_body W method url out headers
                     (extract_data method headers) rc s))
  = cmd :: curl_calls s
  /\ globals (snd (api_call_body W method url out headers
                     (extract_data method headers) rc s)) = globals s
  /\ (forall path, path <> out ->
        files (snd (api_call_body W method url out headers
                      (extract_data method headers) rc s)) !! path
        = files s !! path)
  /\ match fst (api_call_body W method url out headers
                  (extract_data method headers) rc s) with
     | Ret (inl rc') =>
         rc' = rc + 1
         /\ slept (snd (api_call_body W method url out headers
                          (extract_data method headers) rc s))
            = ((if Z.ltb (rc + 1) DEFAULT_MAX_RETRIES then [5] else [])
               ++ slept s)%list
     | Ret (inr status) =>
         status = 0
         /\ slept (snd (api_call_body W method url out headers
                          (extract_data method headers) rc s)) = slept s
     | Raise _ =>
         slept (snd (api_call_body W method url out headers
                       (extract_data method headers) rc s)) = slept s
     | OutOfFuel => False
     end.
Proof.
  unfold api_call_body. unfold_effects. unfold curl_effect.
  rewrite sink_of_curl_cmd. fold cmd.
  destruct (transport W (length (curl_calls s)) cmd) as [code written |];
    [| simpl; auto].
  destruct (Z.eqb code 0) eqn:Hcode.
  - destruct (String.eqb out "/dev/null") eqn:Hout; simpl.
    + destruct written; simpl; auto.
    + assert (Hfiles : forall content path, path <> out ->
                <[out := content]> (files s) !! path = files s !! path).
      { intros content path Hne. now apply lookup_insert_ne. }
      destruct written as [content |]; simpl.
      * rewrite lookup_insert_eq. simpl.
        destruct (Z.eqb (Z.of_nat (String.length content)) 0); simpl;
          [destruct (Z.ltb (rc + 1) DEFAULT_MAX_RETRIES); simpl |]; auto.
      * destruct (files s !! out) as [content |]; simpl; [| auto].
        destruct (Z.eqb (Z.of_nat (String.length content)) 0); simpl;
          [destruct (Z.ltb (rc + 1) DEFAULT_MAX_RETRIES); simpl |]; auto.
  - assert (Hfiles : forall content path, path <> out ->
              <[out := content]> (files s) !! path = files s !! path).
    { intros content path Hne. now apply lookup_insert_ne. }
    destruct (Z.ltb (rc + 1) DEFAULT_MAX_RETRIES); simpl;
      destruct written; simpl; try destruct (String.eqb out "/dev/null");
      simpl; auto.
Qed.

Lemma replicate_snoc_cons {A} (n : nat) (x : A) (l : list A) :
  (replicate n x ++ x :: l = replicate (S n) x ++ l)%list.
Proof. induction n as [| n IH]; simpl; [reflexivity | now rewrite IH]. Qed.

(** The retry loop from any count: [k] attempts with the same command
    line, a wait of 5 seconds between two attempts and none after the
    last; status 1 only when the attempts are used up. *)
Lemma api_call_loop_spec fuel rc s :
  0 <= rc <= DEFAULT_MAX_RETRIES ->
  (Z.to_nat (DEFAULT_MAX_RETRIES - rc) < fuel)%nat ->
  exists k : nat,
    (Nat.min 1 (Z.to_nat (DEFAULT_MAX_RETRIES - rc)) <= k
     <= Z.to_nat (DEFAULT_MAX_RETRIES - rc))%nat
    /\ attempts_made cmd out k s
         (while_loop fuel
            (fun retry_count => Z.ltb retry_count DEFAULT_MAX_RETRIES)
            (api_call_body W method url out headers
               (extract_data method headers))
            (api_call_after method url) rc s)
    /\ (fst (while_loop fuel
               (fun retry_count => Z.ltb retry_count DEFAULT_MAX_RETRIES)
               (api_call_body W method url out headers
                  (extract_data method headers))
               (api_call_after method url) rc s) = Ret 1 ->
        k = Z.to_nat (DEFAULT_MAX_RETRIES - rc)).
Proof.
  revert rc s. induction fuel as [| fuel IH]; intros rc s Hrc Hfuel; [lia |].
  rewrite while_loop_step.
  destruct (Z.ltb rc DEFAULT_MAX_RETRIES) eqn:Hcond.
  - apply Z.ltb_lt in Hcond.
    pose proof (api_call_body_spec rc s) as (Hc & Hg & Hf & Ho).
    fold cmd in Hc. unfold bind.
    destruct (api_call_body W method url out headers
                (extract_data method headers) rc s) as [[[rc' | status] | e |] s1];
      simpl in Hc, Hg, Hf, Ho; try contradiction.
    + destruct Ho as (-> & Hz).
      destruct (IH (rc + 1) s1) as (k & Hk & (Hc' & Hz' & Hg' & Hf' & Ho') & Hlast);
        [lia | lia |].
      exists (S k). split; [lia |]. split; [| intros H; specialize (Hlast H); lia].
      unfold attempts_made. rewrite Hc', Hc, Hz', Hz, Hg', Hg.
      split; [apply replicate_snoc_cons |]. split; [| split; [reflexivity |]].
      * destruct (Z.ltb (rc + 1) DEFAULT_MAX_RETRIES) eqn:Hnext; simpl.
        -- apply Z.ltb_lt in Hnext.
           destruct k as [| k]; [lia |]. simpl. rewrite Nat.sub_0_r.
           now rewrite replicate_snoc_cons.
        -- apply Z.ltb_ge in Hnext. assert (k = 0%nat) as -> by lia.
           reflexivity.
      * split; [| exact Ho'].
        intros path Hpath. now rewrite (Hf' path Hpath), (Hf path Hpath).
    + destruct Ho as (-> & Hz). exists 1%nat. split; [lia |].
      split; [| discriminate].
      unfold attempts_made. simpl. rewrite Hc, Hz, Hg. repeat split; auto.
    + exists 1%nat. split; [lia |]. split; [| discriminate].
      unfold attempts_made. simpl. rewrite Hc, Ho, Hg. repeat split; auto.
  - apply Z.ltb_ge in Hcond. exists 0%nat.
    assert (Z.to_nat (DEFAULT_MAX_RETRIES - rc) = 0%nat) as -> by lia.
    split; [simpl; lia |]. split; [| reflexivity].
    unfold api_call_after. unfold_effects. unfold attempts_made. simpl.
    repeat split; auto.
Qed.

End ApiCallAttempts.

(** The whole call: between one and three attempts. *)
Lemma api_call_accounting
    (W : world) (method url out : string) (headers : list string)
    (s : state) :
  exists k : nat,
    (1 <= k <= 3)%nat
    /\ attempts_made
         (curl_cmd method url out headers (extract_data method headers))
         out k s (api_call W method url out headers s)
    /\ (fst (api_call W method url out headers s) = Ret 1 -> k = 3%nat).
Proof.
  unfold api_call.
  destruct (api_call_loop_spec W method url out headers (retry_fuel 0) 0 s)
    as (k & Hk & Hspec & Hlast).
  - unfold DEFAULT_MAX_RETRIES. lia.
  - unfold retry_fuel. lia.
  - exists k. change (Z.to_nat (DEFAULT_MAX_RETRIES - 0)) with 3%nat in *.
    simpl in Hk. auto.
Qed.

(** X1. Whatever the transport does, [api_call] makes between one and
    three transport calls, all with the same command line, waits 5
    seconds between two calls and not after the last, and leaves the
    module namespace and every file but its sink alone. A status it
    returns is 0 or 1, and 1 only after the third call; an exception
    that escapes ends the call at the attempt that raised it. *)
Theorem api_call_attempts
    (W : world) (method url out : string) (headers : list string)
    (s : state) :
  exists k : nat,
    (1 <= k <= 3)%nat
    /\ attempts_made
         (curl_cmd method url out headers (extract_data method headers))
         out k s (api_call W method url out headers s)
    /\ (fst (api_call W method url out headers s) = Ret 1 -> k = 3%nat).
Proof. apply api_call_accounting. Qed.

(** ** [api_call] on a known run of attempts *)

Section ApiCallRuns.

Variable W : world.
Variables method url out : string.
Variable headers : list string.

Let cmd := curl_cmd method url out headers (extract_data method headers).

Lemma api_call_body_retried rc s :
  out <> "/dev/null" ->
  rc + 1 < DEFAULT_MAX_RETRIES ->
  attempt_retried W (length (curl_calls s)) cmd ->
  exists s',
    api_call_body W method url out headers (extract_data method headers) rc s
    = (Ret (inl (rc + 1)), s')
    /\ advanced s s' [cmd] [5].
Proof.
  intros Hout Hrc [(code & written & Hcode & Hnet) | Hnet].
  - destruct (api_call_body_failed W method url out headers _ rc s code
                written Hcode Hnet) as (s' & E & _ & A).
    apply Z.ltb_lt in Hrc. rewrite Hrc in A. eauto.
  - destruct (api_call_body_empty W method url out headers _ rc s Hout Hnet)
      as (s' & E & _ & A).
    apply Z.ltb_lt in Hrc. rewrite Hrc in E, A. eauto.
Qed.

Lemma advanced_length s s' calls sleeps :
  advanced s s' calls sleeps ->
  length (curl_calls s') = (length (curl_calls s) + length calls)%nat.
Proof. intros (-> & _ & _). rewrite length_app. lia. Qed.

End ApiCallRuns.

(** X2. When the first [j] attempts of [api_call] (at most two) fail or
    leave an empty sink and the next one succeeds with a non-empty body,
    the call returns 0 after exactly [j + 1] transport calls and [j]
    waits of 5 seconds, and the sink holds that body. *)
Theorem api_call_recovers
    (W : world) (method url out : string) (headers : list string)
    (s : state) (j : nat) (body : string) :
  (j < 3)%nat ->
  out <> "/dev/null" ->
  body <> "" ->
  (forall i, (i < j)%nat ->
     attempt_retried W (length (curl_calls s) + i)
       (curl_cmd method url out headers (extract_data method headers))) ->
  transport W (length (curl_calls s) + j)
    (curl_cmd method url out headers (extract_data method headers))
  = Exited 0 (Some body) ->
  fst (api_call W method url out headers s) = Ret 0
  /\ curl_calls (snd (api_call W method url out headers s))
     = (replicate (S j)
          (curl_cmd method url out headers (extract_data method headers))
        ++ curl_calls s)%list
  /\ slept (snd (api_call W method url out headers s))
     = (replicate j 5 ++ slept s)%list
  /\ files (snd (api_call W method url out headers s)) !! out = Some body.
Proof.
  intros Hj Hout Hbody Hretry Hlast.
  set (cmd := curl_cmd method url out headers (extract_data method headers))
    in *.
  unfold api_call. change (retry_fuel 0) with 4%nat.
  destruct j as [| [| [| j]]]; [| | | lia].
  - rewrite Nat.add_0_r in Hlast.
    rewrite while_loop_enter by reflexivity.
    erewrite bind_ret_eq by (eapply api_call_body_answered; eassumption).
    simpl. rewrite lookup_insert_eq. auto.
  - pose proof (Hretry 0%nat ltac:(lia)) as H0. rewrite Nat.add_0_r in H0.
    destruct (api_call_body_retried W method url out headers 0 s Hout
                ltac:(reflexivity) H0) as (s1 & E1 & A1).
    pose proof (advanced_length _ _ _ _ A1) as L1. simpl in L1.
    rewrite <- L1 in Hlast.
    rewrite while_loop_enter by reflexivity.
    rewrite (bind_ret_eq _ _ _ _ _ E1).
    rewrite while_loop_enter by reflexivity.
    erewrite bind_ret_eq by (eapply api_call_body_answered; eassumption).
    destruct A1 as (Hc & Hz & _).
    simpl. rewrite lookup_insert_eq, Hc, Hz. auto.
  - pose proof (Hretry 0%nat ltac:(lia)) as H0. rewrite Nat.add_0_r in H0.
    destruct (api_call_body_retried W method url out headers 0 s Hout
                ltac:(reflexivity) H0) as (s1 & E1 & A1).
    pose proof (advanced_length _ _ _ _ A1) as L1. simpl in L1.
    pose proof (Hretry 1%nat ltac:(lia)) as H1. rewrite <- L1 in H1.
    destruct (api_call_body_retried W method url out headers (0 + 1) s1 Hout
                ltac:(reflexivity) H1) as (s2 & E2 & A2).
    pose proof (advanced_length _ _ _ _ A2) as L2. simpl in L2.
    replace (length (curl_calls s) + 2)%nat with (length (curl_calls s2))
      in Hlast by lia.
    rewrite while_loop_enter by reflexivity.
    rewrite (bind_ret_eq _ _ _ _ _ E1).
    rewrite while_loop_enter by reflexivity.
    rewrite (bind_ret_eq _ _ _ _ _ E2).
    rewrite while_loop_enter by reflexivity.
    erewrite bind_ret_eq by (eapply api_call_body_answered; eassumption).
    destruct A1 as (Hc1 & Hz1 & _). destruct A2 as (Hc2 & Hz2 & _).
    simpl. rewrite lookup_insert_eq, Hc2, Hc1, Hz2, Hz1. auto.
Qed.

(** X2 on two empty responses followed by a body. *)
Lemma api_call_recovers_witness :
  fst (api_call (Scenario.empty_twice_then Sample.body_true) "GET"
         "https://api.sunsynk.net/api/v1/inverters" "inverters.json"
         ["Content-Type: application/json"] (initial_state ∅)) = Ret 0
  /\ curl_calls
       (snd (api_call (Scenario.empty_twice_then Sample.body_true) "GET"
               "https://api.sunsynk.net/api/v1/inverters" "inverters.json"
               ["Content-Type: application/json"] (initial_state ∅)))
     = (replicate 3
          (curl_cmd "GET" "https://api.sunsynk.net/api/v1/inverters"
             "inverters.json" ["Content-Type: application/json"]
             (extract_data "GET" ["Content-Type: application/json"]))
        ++ curl_calls (initial_state ∅))%list
  /\ slept
       (snd (api_call (Scenario.empty_twice_then Sample.body_true) "GET"
               "https://api.sunsynk.net/api/v1/inverters" "inverters.json"
               ["Content-Type: application/json"] (initial_state ∅)))
     = (replicate 2 5 ++ slept (initial_state ∅))%list
  /\ files
       (snd (api_call (Scenario.empty_twice_then Sample.body_true) "GET"
               "https://api.sunsynk.net/api/v1/inverters" "inverters.json"
               ["Content-Type: application/json"] (initial_state ∅)))
     !! "inverters.json" = Some Sample.body_true.
Proof.
  apply (api_call_recovers (Scenario.empty_twice_then Sample.body_true) "GET"
           "https://api.sunsynk.net/api/v1/inverters" "inverters.json"
           ["Content-Type: application/json"] (initial_state ∅) 2
           Sample.body_true).
  - lia.
  - discriminate.
  - discriminate.
  - intros i Hi. right. destruct i as [| [| i]]; [reflexivity | reflexivity | lia].
  - reflexivity.
Defined.

(** Three failed attempts in a row, whatever curl left in the sink. *)
Lemma api_call_failed_thrice
    (W : world) (method url out : string) (headers : list string)
    (s : state) :
  (forall i, (i < 3)%nat ->
     attempt_fails W (length (curl_calls s) + i)
       (curl_cmd method url out headers (extract_data method headers))) ->
  exists s',
    api_call W method url out headers s = (Ret 1, s')
    /\ advanced s s'
         (replicate 3
            (curl_cmd method url out headers (extract_data method headers)))
         [5; 5].
Proof.
  intros Hfail.
  set (cmd := curl_cmd method url out headers (extract_data method headers))
    in *.
  unfold api_call. change (retry_fuel 0) with 4%nat.
  pose proof (Hfail 0%nat ltac:(lia)) as (c0 & w0 & Hc0 & H0).
  rewrite Nat.add_0_r in H0.
  destruct (api_call_body_failed W method url out headers _ 0 s c0 w0 Hc0 H0)
    as (s1 & E1 & _ & A1).
  pose proof (advanced_length _ _ _ _ A1) as L1. simpl in L1.
  pose proof (Hfail 1%nat ltac:(lia)) as (c1 & w1 & Hc1 & H1).
  rewrite <- L1 in H1.
  destruct (api_call_body_failed W method url out headers _ (0 + 1) s1 c1 w1
              Hc1 H1) as (s2 & E2 & _ & A2).
  pose proof (advanced_length _ _ _ _ A2) as L2. simpl in L2.
  pose proof (Hfail 2%nat ltac:(lia)) as (c2 & w2 & Hc2 & H2).
  replace (length (curl_calls s) + 2)%nat with (length (curl_calls s2))
    in H2 by lia.
  destruct (api_call_body_failed W method url out headers _ (0 + 1 + 1) s2 c2
              w2 Hc2 H2) as (s3 & E3 & _ & A3).
  rewrite while_loop_enter by reflexivity.
  rewrite (bind_ret_eq _ _ _ _ _ E1).
  rewrite while_loop_enter by reflexivity.
  rewrite (bind_ret_eq _ _ _ _ _ E2).
  rewrite while_loop_enter by reflexivity.
  rewrite (bind_ret_eq _ _ _ _ _ E3).
  rewrite while_loop_leave by reflexivity.
  unfold api_call_after. unfold_effects. simpl.
  eexists. split; [reflexivity |].
  pose proof (advanced_trans _ _ _ _ _ _ _
                (advanced_trans _ _ _ _ _ _ _ A1 A2) A3) as A.
  unfold advanced in *. simpl in *. exact A.
Qed.

(** X3. When the three attempts of [api_call] all fail, whatever curl
    left in the sink, the call returns 1 after exactly three transport
    calls and two waits of 5 seconds. *)
Theorem api_call_three_failures
    (W : world) (method url out : string) (headers : list string)
    (s : state) :
  (forall i, (i < 3)%nat ->
     attempt_fails W (length (curl_calls s) + i)
       (curl_cmd method url out headers (extract_data method headers))) ->
  fst (api_call W method url out headers s) = Ret 1
  /\ curl_calls (snd (api_call W method url out headers s))
     = (replicate 3
          (curl_cmd method url out headers (extract_data method headers))
        ++ curl_calls s)%list
  /\ slept (snd (api_call W method url out headers s))
     = ([5; 5] ++ slept s)%list.
Proof.
  intros Hfail.
  destruct (api_call_failed_thrice W method url out headers s Hfail)
    as (s' & E & Hc & Hz & _).
  rewrite E. auto.
Qed.

(** X3 on a transport that breaks off every transfer. *)
Lemma api_call_three_failures_witness :
  fst (api_call (Scenario.fails_leaving "{") "GET"
         "https://api.sunsynk.net/api/v1/inverters" "inverters.json"
         ["Content-Type: application/json"] (initial_state ∅)) = Ret 1
  /\ curl_calls
       (snd (api_call (Scenario.fails_leaving "{") "GET"
               "https://api.sunsynk.net/api/v1/inverters" "inverters.json"
               ["Content-Type: application/json"] (initial_state ∅)))
     = (replicate 3
          (curl_cmd "GET" "https://api.sunsynk.net/api/v1/inverters"
             "inverters.json" ["Content-Type: application/json"]
             (extract_data "GET" ["Content-Type: application/json"]))
        ++ curl_calls (initial_state ∅))%list
  /\ slept
       (snd (api_call (Scenario.fails_leaving "{") "GET"
               "https://api.sunsynk.net/api/v1/inverters" "inverters.json"
               ["Content-Type: application/json"] (initial_state ∅)))
     = ([5; 5] ++ slept (initial_state ∅))%list.
Proof.
  apply (api_call_three_failures (Scenario.fails_leaving "{") "GET"
           "https://api.sunsynk.net/api/v1/inverters" "inverters.json"
           ["Content-Type: application/json"] (initial_state ∅)).
  intros i _. exists 18, (Some "{"). split; [lia | reflexivity].
Defined.

(** The discard sink is not inspected. *)
Lemma api_call_discard_sink_aux
    (W : world) (method url : string) (headers : list string) (s : state)
    (written : option string) :
  transport W (length (curl_calls s))
    (curl_cmd method url "/dev/null" headers (extract_data method headers))
  = Exited 0 written ->
  fst (api_call W method url "/dev/null" headers s) = Ret 0
  /\ curl_calls (snd (api_call W method url "/dev/null" headers s))
     = curl_cmd method url "/dev/null" headers (extract_data method headers)
       :: curl_calls s
  /\ slept (snd (api_call W method url "/dev/null" headers s)) = slept s
  /\ files (snd (api_call W method url "/dev/null" headers s)) = files s.
Proof.
  intros Hnet. unfold api_call. change (retry_fuel 0) with 4%nat.
  rewrite while_loop_enter by reflexivity.
  unfold api_call_body. unfold_effects. rewrite Hnet. unfold curl_effect.
  rewrite sink_of_curl_cmd. simpl.
  destruct written; simpl; auto.
Qed.

(** X4. With the discard sink an attempt that curl reports successful
    ends the call at once with status 0: the sink is not inspected, and
    no file is written. *)
Theorem api_call_discard_sink
    (W : world) (method url : string) (headers : list string) (s : state)
    (written : option string) :
  transport W (length (curl_calls s))
    (curl_cmd method url "/dev/null" headers (extract_data method headers))
  = Exited 0 written ->
  fst (api_call W method url "/dev/null" headers s) = Ret 0
  /\ curl_calls (snd (api_call W method url "/dev/null" headers s))
     = curl_cmd method url "/dev/null" headers (extract_data method headers)
       :: curl_calls s
  /\ slept (snd (api_call W method url "/dev/null" headers s)) = slept s
  /\ files (snd (api_call W method url "/dev/null" headers s)) = files s.
Proof. apply api_call_discard_sink_aux. Qed.

(** X4 on a transport that creates no file. *)
Lemma api_call_discard_sink_witness :
  fst (api_call Sample.succeeds_without_sink "POST" "http://10.0.0.2:8123/api"
         "/dev/null" ["Content-Type: application/json"] (initial_state ∅))
  = Ret 0
  /\ curl_calls
       (snd (api_call Sample.succeeds_without_sink "POST"
               "http://10.0.0.2:8123/api" "/dev/null"
               ["Content-Type: application/json"] (initial_state ∅)))
     = curl_cmd "POST" "http://10.0.0.2:8123/api" "/dev/null"
         ["Content-Type: application/json"]
         (extract_data "POST" ["Content-Type: application/json"])
       :: curl_calls (initial_state ∅)
  /\ slept
       (snd (api_call Sample.succeeds_without_sink "POST"
               "http://10.0.0.2:8123/api" "/dev/null"
               ["Content-Type: application/json"] (initial_state ∅)))
     = slept (initial_state ∅)
  /\ files
       (snd (api_call Sample.succeeds_without_sink "POST"
               "http://10.0.0.2:8123/api" "/dev/null"
               ["Content-Type: application/json"] (initial_state ∅)))
     = files (initial_state ∅).
Proof.
  apply (api_call_discard_sink Sample.succeeds_without_sink "POST"
           "http://10.0.0.2:8123/api" ["Content-Type: application/json"]
           (initial_state ∅) None).
  reflexivity.
Defined.

(** ** Statuses of the operations *)


Section StatusesOfOperations.

Variable W : world.








End StatusesOfOperations.


(** ** Settings push on a known run of responses *)

Section SettingsRounds.

Variable W : world.
Variables inverter_sn settings_data : string.
Variable token : json.

Let cmd := settings_curl_cmd W inverter_sn settings_data token.

(** With valid arguments the call is its retry loop, entered in a state
    that differs from the initial one by log and output lines only. *)
Lemma send_inverter_settings_enters_loop s :
  inverter_sn <> "" ->
  settings_data <> "" ->
  is_Some (json_loads W settings_data) ->
  exists s0,
    send_inverter_settings W inverter_sn settings_data s
    = while_loop (retry_fuel 0)
        (fun retry_count => Z.ltb retry_count DEFAULT_MAX_RETRIES)
        (send_inverter_settings_body W inverter_sn settings_data
           (settings_endpoint inverter_sn) settings_sink)
        send_inverter_settings_after 0 s0
    /\ files s0 = files s
    /\ advanced s s0 [] [].
Proof.
  intros Hsn Hsd [j Hj].
  unfold send_inverter_settings, Py.truthy.
  rewrite (eqb_string_false _ _ Hsn), (eqb_string_false _ _ Hsd), Hj.
  cbn [negb orb].
  unfold bind at 1. unfold log_message at 1, modify.
  unfold bind at 1.
  destruct (bool_decide (os_getenv W "ENABLE_VERBOSE_LOG" = Some "true"));
    unfold_effects; eexists; (split; [reflexivity |]);
    unfold advanced; simpl; auto.
Qed.



(** A round whose three transport calls fail counts as a retry; the
    call waits 30 seconds unless it was the last round, which returns
    1. *)
Lemma settings_round_failed rc s :
  token_value s = Some token ->
  (forall i, (i < 3)%nat -> attempt_fails W (length (curl_calls s) + i) cmd) ->
  exists s',
    send_inverter_settings_body W inverter_sn settings_data
      (settings_endpoint inverter_sn) settings_sink rc s
    = (Ret (if Z.ltb (rc + 1) DEFAULT_MAX_RETRIES then inl (rc + 1)
            else inr 1), s')
    /\ advanced s s' [cmd; cmd; cmd]
         ((if Z.ltb (rc + 1) DEFAULT_MAX_RETRIES then [30] else [])
          ++ [5; 5]).
Proof.
  intros Htok Hfail.
  unfold send_inverter_settings_body.
  rewrite (bind_ret_eq _ _ s token s)
    by (unfold load_global; unfold token_value in Htok; now rewrite Htok).
  destruct (api_call_failed_thrice W "POST" (settings_endpoint inverter_sn)
              settings_sink (settings_headers W token settings_data) s Hfail)
    as (s1 & E & Hc & Hz & Hg).
  fold cmd in Hc.
  unfold settings_headers in E. rewrite (bind_ret_eq _ _ _ _ _ E).
  change (Z.eqb 1 0) with false. cbv iota.
  unfold_effects.
  destruct (Z.ltb (rc + 1) DEFAULT_MAX_RETRIES); simpl;
    eexists; (split; [reflexivity |]); unfold advanced; simpl;
    rewrite Hc, Hz, Hg; auto.
Qed.

End SettingsRounds.

Lemma while_loop_continue {St R} fuel cond (body : St -> M (St + R)) after
    st st' s s' :
  cond st = true ->
  body st s = (Ret (inl st'), s') ->
  while_loop (S fuel) cond body after st s
  = while_loop fuel cond body after st' s'.
Proof.
  intros Hcond Hbody. rewrite while_loop_enter by assumption.
  now rewrite (bind_ret_eq _ _ _ _ _ Hbody).
Qed.

Lemma while_loop_return {St R} fuel cond (body : St -> M (St + R)) after
    st v s s' :
  cond st = true ->
  body st s = (Ret (inr v), s') ->
  while_loop (S fuel) cond body after st s = (Ret v, s').
Proof.
  intros Hcond Hbody. rewrite while_loop_enter by assumption.
  now rewrite (bind_ret_eq _ _ _ _ _ Hbody).
Qed.

Lemma advanced_token s s' calls sleeps token :
  advanced s s' calls sleeps ->
  token_value s = Some token -> token_value s' = Some token.
Proof. intros (_ & _ & Hg). unfold token_value. now rewrite Hg. Qed.

Section SettingsRuns.

Variable W : world.
Variables inverter_sn settings_data : string.
Variable token : json.

Let cmd := settings_curl_cmd W inverter_sn settings_data token.



Lemma settings_loop_failed s :
  token_value s = Some token ->
  (forall i, (i < 9)%nat -> attempt_fails W (length (curl_calls s) + i) cmd) ->
  exists s',
    while_loop (retry_fuel 0)
      (fun retry_count => Z.ltb retry_count DEFAULT_MAX_RETRIES)
      (send_inverter_settings_body W inverter_sn settings_data
         (settings_endpoint inverter_sn) settings_sink)
      send_inverter_settings_after 0 s
    = (Ret 1, s')
    /\ advanced s s' (replicate 9 cmd) [5; 5; 30; 5; 5; 30; 5; 5].
Proof.
  intros Htok Hfail. change (retry_fuel 0) with 4%nat.
  assert (H0 : forall i, (i < 3)%nat ->
            attempt_fails W (length (curl_calls s) + i) cmd).
  { intros i Hi. apply Hfail. lia. }
  destruct (settings_round_failed W inverter_sn settings_data token 0 s
              Htok H0) as (s1 & E1 & A1).
  simpl in E1, A1.
  pose proof (advanced_length _ _ _ _ A1) as L1. simpl in L1.
  assert (H1 : forall i, (i < 3)%nat ->
            attempt_fails W (length (curl_calls s1) + i) cmd).
  { intros i Hi. rewrite L1.
    replace (length (curl_calls s) + 3 + i)%nat
      with (length (curl_calls s) + (3 + i))%nat by lia.
    apply Hfail. lia. }
  destruct (settings_round_failed W inverter_sn settings_data token (0 + 1) s1
              (advanced_token _ _ _ _ _ A1 Htok) H1) as (s2 & E2 & A2).
  simpl in E2, A2.
  pose proof (advanced_trans _ _ _ _ _ _ _ A1 A2) as A12.
  pose proof (advanced_length _ _ _ _ A12) as L2. simpl in L2.
  assert (H2 : forall i, (i < 3)%nat ->
            attempt_fails W (length (curl_calls s2) + i) cmd).
  { intros i Hi. rewrite L2.
    replace (length (curl_calls s) + 6 + i)%nat
      with (length (curl_calls s) + (6 + i))%nat by lia.
    apply Hfail. lia. }
  destruct (settings_round_failed W inverter_sn settings_data token
              (0 + 1 + 1) s2 (advanced_token _ _ _ _ _ A12 Htok) H2)
    as (s3 & E3 & A3).
  simpl in E3, A3.
  rewrite (while_loop_continue _ _ _ _ _ _ _ _ eq_refl E1).
  rewrite (while_loop_continue _ _ _ _ _ _ _ _ eq_refl E2).
  rewrite (while_loop_return _ _ _ _ _ _ _ _ eq_refl E3).
  exists s3. split; [reflexivity |].
  apply (advanced_trans _ _ _ _ _ _ _ A12 A3).
Qed.

End SettingsRuns.





(** X8. With valid arguments, when every transport call fails,
    [send_inverter_settings] makes three rounds of three calls: it
    returns 1 after exactly nine transport calls, having waited 5
    seconds between the calls of a round and 30 seconds between rounds,
    and not after the last round. *)
Theorem send_inverter_settings_transport_down
    (W : world) (inverter_sn settings_data : string) (token : json)
    (s : state) :
  inverter_sn <> "" ->
  settings_data <> "" ->
  is_Some (json_loads W settings_data) ->
  token_value s = Some token ->
  (forall i, (i < 9)%nat ->
     attempt_fails W (length (curl_calls s) + i)
       (settings_curl_cmd W inverter_sn settings_data token)) ->
  fst (send_inverter_settings W inverter_sn settings_data s) = Ret 1
  /\ curl_calls (snd (send_inverter_settings W inverter_sn settings_data s))
     = (replicate 9 (settings_curl_cmd W inverter_sn settings_data token)
        ++ curl_calls s)%list
  /\ slept (snd (send_inverter_settings W inverter_sn settings_data s))
     = ([5; 5; 30; 5; 5; 30; 5; 5] ++ slept s)%list.
Proof.
  intros Hsn Hsd Hjson Htok Hfail.
  destruct (send_inverter_settings_enters_loop W inverter_sn settings_data s
              Hsn Hsd Hjson) as (s0 & -> & _ & A0).
  pose proof (advanced_length _ _ _ _ A0) as L0. simpl in L0.
  rewrite Nat.add_0_r in L0. rewrite <- L0 in Hfail.
  destruct (settings_loop_failed W inverter_sn settings_data token s0
              (advanced_token _ _ _ _ _ A0 Htok) Hfail) as (s' & -> & A).
  destruct (advanced_trans _ _ _ _ _ _ _ A0 A) as (Hc & Hz & _).
  rewrite !app_nil_r in Hc, Hz. auto.
Qed.

(** X8 on the transport that always fails. *)
Lemma send_inverter_settings_transport_down_witness :
  fst (send_inverter_settings Sample.always_fails "INV123456789"
         Sample.settings (initial_state ∅)) = Ret 1
  /\ curl_calls
       (snd (send_inverter_settings Sample.always_fails "INV123456789"
               Sample.settings (initial_state ∅)))
     = (replicate 9
          (settings_curl_cmd Sample.always_fails "INV123456789"
             Sample.settings (JStr ""))
        ++ curl_calls (initial_state ∅))%list
  /\ slept
       (snd (send_inverter_settings Sample.always_fails "INV123456789"
               Sample.settings (initial_state ∅)))
     = ([5; 5; 30; 5; 5; 30; 5; 5] ++ slept (initial_state ∅))%list.
Proof.
  apply (send_inverter_settings_transport_down Sample.always_fails
           "INV123456789" Sample.settings (JStr "") (initial_state ∅)).
  - discriminate.
  - discriminate.
  - eexists. vm_compute. reflexivity.
  - reflexivity.
  - intros i _. exists 22, None. split; [lia | reflexivity].
Defined.

Lemma startswith_bearer (x : string) :
  Py.startswith ("authorization: Bearer " +:+ x) "-d " = false.
Proof. reflexivity. Qed.

Lemma startswith_data (x : string) :
  Py.startswith ("-d " +:+ x) "-d " = true.
Proof. now destruct x. Qed.

Lemma slice_from_data_header (x : string) :
  Py.slice_from 3 ("-d " +:+ x) = x.
Proof. reflexivity. Qed.

(** X9. The settings request is a POST to the endpoint of the inverter
    whose body is the payload as given and whose bearer is the module
    token as it stands, the empty one included. *)
Theorem settings_request_format
    (W : world) (inverter_sn settings_data : string) (token : json) :
  settings_data <> "" ->
  settings_curl_cmd W inverter_sn settings_data token
  = ["curl"; "-s"; "-f"; "-S"; "-k"; "-X"; "POST";
     "-H"; "Content-Type: application/json";
     "-H"; "authorization: Bearer " +:+ py_str W token;
     "-d"; settings_data;
     "https://api.sunsynk.net/api/v1/common/setting/" +:+ inverter_sn
     +:+ "/set";
     "-o"; "inverter_settings_response.json"].
Proof.
  intros Hsd. unfold settings_curl_cmd, settings_headers, curl_cmd,
    extract_data, settings_endpoint, settings_sink.
  cbn. rewrite !startswith_data, !(startswith_bearer (py_str W token)).
  cbn.
  change ("-d " +:+ settings_data)
    with (String "-" (String "d" (String " " settings_data))).
  cbv iota. rewrite (eqb_string_false _ _ Hsd). reflexivity.
Qed.

(** X9 on the example payload and the empty token. *)
Lemma settings_request_format_witness :
  settings_curl_cmd Sample.always_fails "INV123456789" Sample.settings
    (JStr "")
  = ["curl"; "-s"; "-f"; "-S"; "-k"; "-X"; "POST";
     "-H"; "Content-Type: application/json";
     "-H"; "authorization: Bearer " +:+ py_str Sample.always_fails (JStr "");
     "-d"; Sample.settings;
     "https://api.sunsynk.net/api/v1/common/setting/" +:+ "INV123456789"
     +:+ "/set";
     "-o"; "inverter_settings_response.json"].
Proof.
  apply (settings_request_format Sample.always_fails "INV123456789"
           Sample.settings (JStr "")).
  discriminate.
Defined.

(** ** Request bodies *)

Lemma flat_map_header_filter (headers : list string) :
  flat_map (fun header =>
              if Py.startswith header "-d " then [] else ["-H"; header])
    (List.filter (fun header => negb (is_data_header header)) headers)
  = flat_map (fun header =>
                if Py.startswith header "-d " then [] else ["-H"; header])
      headers.
Proof.
  induction headers as [| header headers IH]; [reflexivity |].
  simpl. unfold is_data_header at 1.
  destruct (Py.startswith header "-d ") eqn:E; simpl; [exact IH |].
  rewrite E. now rewrite IH.
Qed.

Lemma existsb_filter_false {A} (p q : A -> bool) (l : list A) :
  existsb p l = false -> existsb p (List.filter q l) = false.
Proof.
  induction l as [| x l IH]; [reflexivity |]. simpl.
  intros H. apply orb_false_iff in H as [Hx Hl].
  destruct (q x); simpl; [rewrite Hx |]; auto.
Qed.

Lemma extract_data_without_body (method : string) (headers : list string) :
  method <> "POST"
  \/ existsb (Py.contains "Content-Type: application/json") headers = false ->
  extract_data method headers = "".
Proof.
  intros [H | H]; unfold extract_data.
  - now rewrite (eqb_string_false _ _ H).
  - rewrite H. now rewrite andb_false_r.
Qed.

(** X10. Unless the method is POST and some header names the JSON
    content type, [api_call] sends no body: the [-d ] headers are
    dropped, and the call is the one made without them. *)
Theorem api_call_drops_data_headers
    (W : world) (method url out : string) (headers : list string)
    (s : state) :
  method <> "POST"
  \/ existsb (Py.contains "Content-Type: application/json") headers = false ->
  api_call W method url out headers s
  = api_call W method url out
      (List.filter (fun header => negb (is_data_header header)) headers) s.
Proof.
  intros H. unfold api_call, api_call_body.
  rewrite (extract_data_without_body method headers H).
  rewrite (extract_data_without_body method (List.filter _ headers)).
  - unfold curl_cmd. now rewrite flat_map_header_filter.
  - destruct H as [H | H]; [now left | right].
    now apply existsb_filter_false.
Qed.

(** X10 on a GET that was given a body. *)
Lemma api_call_drops_data_headers_witness :
  api_call Sample.always_fails "GET" "http://10.0.0.2:8123/api/states"
    "/dev/null" ["Content-Type: application/json"; "-d {}"] (initial_state ∅)
  = api_call Sample.always_fails "GET" "http://10.0.0.2:8123/api/states"
      "/dev/null"
      (List.filter (fun header => negb (is_data_header header))
         ["Content-Type: application/json"; "-d {}"])
      (initial_state ∅).
Proof.
  apply (api_call_drops_data_headers Sample.always_fails "GET"
           "http://10.0.0.2:8123/api/states" "/dev/null"
           ["Content-Type: application/json"; "-d {}"] (initial_state ∅)).
  left. discriminate.
Defined.

(** ** The Home Assistant client *)

(** X11. Without an endpoint or without a non-empty [HA_TOKEN] in the
    environment, [ha_api_call] returns 1 and makes no transport call; it
    neither waits nor touches a file. *)
Theorem ha_api_call_missing_credentials
    (W : world) (endpoint method data output_file : string) (s : state) :
  endpoint = "" \/ os_getenv W "HA_TOKEN" = None
  \/ os_getenv W "HA_TOKEN" = Some "" ->
  fst (ha_api_call W endpoint method data output_file s) = Ret 1
  /\ curl_calls (snd (ha_api_call W endpoint method data output_file s))
     = curl_calls s
  /\ slept (snd (ha_api_call W endpoint method data output_file s)) = slept s
  /\ files (snd (ha_api_call W endpoint method data output_file s)) = files s.
Proof.
  intros H. unfold ha_api_call, Py.truthy.
  destruct endpoint as [| c endpoint]; [now unfold_effects |].
  destruct H as [H | [H | H]]; [discriminate H | |];
    rewrite H; now unfold_effects.
Qed.

(** X11 in an empty environment. *)
Lemma ha_api_call_missing_credentials_witness :
  fst (ha_api_call Sample.always_fails "/api/states" "GET" "" "/dev/null"
         (initial_state ∅)) = Ret 1
  /\ curl_calls
       (snd (ha_api_call Sample.always_fails "/api/states" "GET" ""
               "/dev/null" (initial_state ∅)))
     = curl_calls (initial_state ∅)
  /\ slept
       (snd (ha_api_call Sample.always_fails "/api/states" "GET" ""
               "/dev/null" (initial_state ∅)))
     = slept (initial_state ∅)
  /\ files
       (snd (ha_api_call Sample.always_fails "/api/states" "GET" ""
               "/dev/null" (initial_state ∅)))
     = files (initial_state ∅).
Proof.
  apply (ha_api_call_missing_credentials Sample.always_fails "/api/states"
           "GET" "" "/dev/null" (initial_state ∅)).
  right. left. reflexivity.
Defined.

Lemma startswith_authorization (x : string) :
  Py.startswith ("Authorization: Bearer " +:+ x) "-d " = false.
Proof. reflexivity. Qed.

Lemma ha_post_cmd (url token data : string) :
  data <> "" ->
  curl_cmd "POST" url "/dev/null"
    ["Authorization: Bearer " +:+ token; "Content-Type: application/json";
     "-d " +:+ data]
    (extract_data "POST"
       ["Authorization: Bearer " +:+ token; "Content-Type: application/json";
        "-d " +:+ data])
  = ["curl"; "-s"; "-f"; "-S"; "-k"; "-X"; "POST";
     "-H"; "Authorization: Bearer " +:+ token;
     "-H"; "Content-Type: application/json";
     "-d"; data; url; "-o"; "/dev/null"].
Proof.
  intros Hdata. unfold curl_cmd, extract_data. cbn.
  rewrite !(startswith_authorization token), !startswith_data. cbn.
  rewrite orb_true_r. cbn.
  change ("-d " +:+ data) with (String "-" (String "d" (String " " data))).
  cbv iota. rewrite (eqb_string_false _ _ Hdata). reflexivity.
Qed.

(** X12. A POST of [ha_api_call] with a body, given an endpoint and a
    token: the request carries the bearer of the environment, the JSON
    content type and the body as given, to the address built from the
    environment; with the discard sink, one successful transport call
    ends it with status 0 and no file is touched. *)
Theorem ha_api_call_post
    (W : world) (endpoint data token : string) (s : state)
    (written : option string) :
  endpoint <> "" ->
  data <> "" ->
  os_getenv W "HA_TOKEN" = Some token ->
  token <> "" ->
  (forall cmd, transport W (length (curl_calls s)) cmd = Exited 0 written) ->
  fst (ha_api_call W endpoint "POST" data "/dev/null" s) = Ret 0
  /\ curl_calls (snd (ha_api_call W endpoint "POST" data "/dev/null" s))
     = ["curl"; "-s"; "-f"; "-S"; "-k"; "-X"; "POST";
        "-H"; "Authorization: Bearer " +:+ token;
        "-H"; "Content-Type: application/json";
        "-d"; data; ha_url W endpoint; "-o"; "/dev/null"]
       :: curl_calls s
  /\ slept (snd (ha_api_call W endpoint "POST" data "/dev/null" s)) = slept s
  /\ files (snd (ha_api_call W endpoint "POST" data "/dev/null" s)) = files s.
Proof.
  intros Hendpoint Hdata Htoken Htok Hnet.
  assert (Hfmt : fmt_getenv W "HA_TOKEN" = token).
  { unfold fmt_getenv. now rewrite Htoken. }
  unfold ha_api_call, Py.truthy.
  rewrite (eqb_string_false _ _ Hendpoint), Htoken,
    (eqb_string_false _ _ Htok), (eqb_string_false _ _ Hdata), Hfmt.
  cbn [negb]. fold (ha_url W endpoint). simpl app.
  destruct (api_call_discard_sink_aux W "POST" (ha_url W endpoint)
              ["Authorization: Bearer " +:+ token;
               "Content-Type: application/json"; "-d " +:+ data]
              s written (Hnet _)) as (Hr & Hc & Hz & Hf).
  rewrite Hr, Hc, Hz, Hf, (ha_post_cmd _ _ _ Hdata). auto.
Qed.

(** X12 in a configured environment. *)
Lemma ha_api_call_post_witness :
  fst (ha_api_call (Scenario.ha_world (fun _ _ => Exited 0 None))
         "/api/states/sensor.solar" "POST" "{}" "/dev/null" (initial_state ∅))
  = Ret 0
  /\ curl_calls
       (snd (ha_api_call (Scenario.ha_world (fun _ _ => Exited 0 None))
               "/api/states/sensor.solar" "POST" "{}" "/dev/null"
               (initial_state ∅)))
     = ["curl"; "-s"; "-f"; "-S"; "-k"; "-X"; "POST";
        "-H"; "Authorization: Bearer " +:+ "secret";
        "-H"; "Content-Type: application/json";
        "-d"; "{}";
        ha_url (Scenario.ha_world (fun _ _ => Exited 0 None))
          "/api/states/sensor.solar";
        "-o"; "/dev/null"]
       :: curl_calls (initial_state ∅)
  /\ slept
       (snd (ha_api_call (Scenario.ha_world (fun _ _ => Exited 0 None))
               "/api/states/sensor.solar" "POST" "{}" "/dev/null"
               (initial_state ∅)))
     = slept (initial_state ∅)
  /\ files
       (snd (ha_api_call (Scenario.ha_world (fun _ _ => Exited 0 None))
               "/api/states/sensor.solar" "POST" "{}" "/dev/null"
               (initial_state ∅)))
     = files (initial_state ∅).
Proof.
  apply (ha_api_call_post (Scenario.ha_world (fun _ _ => Exited 0 None))
           "/api/states/sensor.solar" "{}" "secret" (initial_state ∅) None).
  - discriminate.
  - discriminate.
  - reflexivity.
  - discriminate.
  - intros cmd. reflexivity.
Defined.

Example ha_url_configured :
  ha_url (Scenario.ha_world (fun _ _ => Exited 0 None)) "/api/states"
  = "http://10.0.0.2:8123/api/states".
Proof. reflexivity. Qed.

Example ha_url_unset : ha_url Sample.always_fails "/api" = "None://None:None/api".
Proof. reflexivity. Qed.

(** ** Files *)

Section FileFrame.

Variable W : world.
Variable path : string.

Lemma pf_ret {A} (a : A) : preserves_file path (ret a).
Proof. now intros s. Qed.

Lemma pf_raise {A} (e : exn) : preserves_file path (@raise A e).
Proof. now intros s. Qed.

Lemma pf_bind {A B} (m : M A) (k : A -> M B) :
  preserves_file path m -> (forall a, preserves_file path (k a)) ->
  preserves_file path (bind m k).
Proof.
  intros Hm Hk s. unfold bind. specialize (Hm s).
  destruct (m s) as [[a | e |] s']; simpl in *; try assumption.
  now rewrite Hk.
Qed.

Lemma pf_gets {A} (f : state -> A) : preserves_file path (gets f).
Proof. now intros s. Qed.

Lemma pf_log_message level msg : preserves_file path (log_message level msg).
Proof. now intros s. Qed.

Lemma pf_time_sleep d : preserves_file path (time_sleep d).
Proof. now intros s. Qed.

Lemma pf_print line : preserves_file path (print line).
Proof. now intros s. Qed.

Lemma pf_os_path_exists p : preserves_file path (os_path_exists p).
Proof. now intros s. Qed.

Lemma pf_os_stat_size p : preserves_file path (os_stat_size p).
Proof. intros s. unfold os_stat_size. now destruct (files s !! p). Qed.

Lemma pf_read_text p : preserves_file path (read_text p).
Proof. intros s. unfold read_text. now destruct (files s !! p). Qed.

Lemma pf_try_json_load p : preserves_file path (try_json_load W p).
Proof. now intros s. Qed.

Lemma pf_py_get obj key default : preserves_file path (py_get obj key default).
Proof.
  unfold py_get. destruct obj; try apply pf_raise.
  destruct (_ !! key); apply pf_ret.
Qed.

Lemma pf_py_len obj : preserves_file path (py_len obj).
Proof.
  unfold py_len. destruct (Py.len obj); [apply pf_ret | apply pf_raise].
Qed.

Lemma pf_load_global name : preserves_file path (load_global name).
Proof. intros s. unfold load_global. now destruct (globals s !! name). Qed.

Lemma pf_store_name decls locals name v :
  preserves_file path (store_name decls locals name v).
Proof.
  unfold store_name. destruct (bool_decide _); [| apply pf_ret].
  apply pf_bind; [now intros s | intros _; apply pf_ret].
Qed.

Lemma pf_load_name decls locals name :
  preserves_file path (load_name decls locals name).
Proof.
  unfold load_name. destruct (bool_decide _); [apply pf_load_global |].
  destruct (locals !! name); [apply pf_ret | apply pf_raise].
Qed.

(** curl writes to its sink only, and to nothing when that is the
    discard sink. *)
Lemma pf_subprocess_call cmd :
  path <> sink_of cmd \/ sink_of cmd = "/dev/null" ->
  preserves_file path (subprocess_call W cmd).
Proof.
  intros H s. unfold subprocess_call, curl_effect.
  destruct (transport W _ cmd) as [code [content |] |]; simpl; try reflexivity.
  destruct (String.eqb (sink_of cmd) "/dev/null") eqn:E; simpl; [reflexivity |].
  destruct H as [H | H]; [now apply lookup_insert_ne |].
  apply String.eqb_neq in E. contradiction.
Qed.

Lemma pf_while_loop {St R} fuel cond (body : St -> M (St + R)) after st :
  (forall st, preserves_file path (body st)) ->
  (forall st, preserves_file path (after st)) ->
  preserves_file path (while_loop fuel cond body after st).
Proof.
  intros Hbody Hafter. revert st.
  induction fuel as [| fuel IH]; intros st.
  - now intros s.
  - rewrite while_loop_step. destruct (cond st); [| apply Hafter].
    apply pf_bind; [apply Hbody |].
    intros [st' | v]; [apply IH | apply pf_ret].
Qed.

End FileFrame.

Create HintDb files discriminated.

#[export] Hint Resolve pf_ret pf_raise pf_gets pf_log_message pf_time_sleep
  pf_print pf_os_path_exists pf_os_stat_size pf_read_text pf_try_json_load
  pf_py_get pf_py_len pf_load_global pf_store_name pf_load_name : files.

Ltac file_walk :=
  repeat first
    [ progress auto with files
    | apply pf_bind; [| intros ?]
    | apply pf_while_loop; intros ?
    | match goal with
      | |- preserves_file _ (if ?b then _ else _) => destruct b
      | |- preserves_file _ (match ?x with _ => _ end) => destruct x
      | |- preserves_file _ (continue_with _) => apply pf_ret
      | |- preserves_file _ (return_ _) => apply pf_ret
      end ].

Section FileFrameOfOperations.

Variable W : world.
Variable path : string.

Lemma pf_api_call method url out headers :
  path <> out \/ out = "/dev/null" ->
  preserves_file path (api_call W method url out headers).
Proof.
  intros H.
  assert (Hcall : preserves_file path
            (subprocess_call W
               (curl_cmd method url out headers
                  (extract_data method headers)))).
  { apply pf_subprocess_call. now rewrite sink_of_curl_cmd. }
  unfold api_call, api_call_body, api_call_after. file_walk.
Qed.

Lemma not_written_by_sink (sink : string) :
  path ∉ List.filter (fun sink => negb (String.eqb sink "/dev/null")) [sink] ->
  path <> sink \/ sink = "/dev/null".
Proof.
  simpl. destruct (String.eqb sink "/dev/null") eqn:E; simpl; intros H.
  - right. now apply String.eqb_eq.
  - left. intros ->. apply H. apply list_elem_of_here.
Qed.

Lemma pf_run op : path ∉ written_by op -> preserves_file path (run W op).
Proof.
  destruct op; unfold written_by; intros H; simpl run.
  - apply not_written_by_sink in H.
    pose proof (fun method url headers =>
                  pf_api_call method url "token.json" headers H).
    unfold get_auth_token, get_auth_token_body, get_auth_token_after,
      token_check, assign, lookup_name.
    file_walk.
  - unfold validate_token. file_walk.
  - apply pf_api_call. now apply not_written_by_sink.
  - apply not_written_by_sink in H.
    pose proof (fun method url headers =>
                  pf_api_call method url output_file headers H).
    unfold sunsynk_api_call. file_walk.
  - apply not_written_by_sink in H.
    pose proof (fun method url headers =>
                  pf_api_call method url output_file headers H).
    unfold ha_api_call. file_walk.
  - apply not_written_by_sink in H.
    pose proof (fun method url headers =>
                  pf_api_call method url "inverter_settings_response.json"
                    headers H).
    unfold send_inverter_settings, send_inverter_settings_body,
      send_inverter_settings_after, settings_retry.
    file_walk.
Qed.

End FileFrameOfOperations.

(** X13. An operation writes no file but its response sink, and none at
    all when the sink is the discard sink: [get_auth_token] may change
    token.json only, [send_inverter_settings] its response file only,
    the calls given a sink that sink only, and [validate_token]
    nothing. *)
Theorem run_writes_only_its_sink
    (W : world) (op : operation) (s : state) (path : string) :
  path ∉ written_by op ->
  files (snd (run W op s)) !! path = files s !! path.
Proof. intros H. now apply pf_run. Qed.

(** X13 on a token request, which leaves the settings response alone. *)
Lemma run_writes_only_its_sink_witness :
  files (snd (run (Sample.always_answers Sample.body_token_ok) OpGetAuthToken
                (initial_state
                   {[ "inverter_settings_response.json" := Sample.body_true ]})))
  !! "inverter_settings_response.json"
  = files (initial_state
             {[ "inverter_settings_response.json" := Sample.body_true ]})
    !! "inverter_settings_response.json".
Proof.
  apply (run_writes_only_its_sink (Sample.always_answers Sample.body_token_ok)
           OpGetAuthToken
           (initial_state
              {[ "inverter_settings_response.json" := Sample.body_true ]})
           "inverter_settings_response.json").
  vm_compute. intros H. inversion H as [| ? ? ? H']; inversion H'.
Defined.

(** ** Token validation and authenticated reads *)

(** X14. [validate_token] is a check and nothing else: its status is 0
    when the module token is a true value and 1 otherwise, and it makes
    no transport call, does not wait, and leaves files, module namespace
    and standard output as they were. *)
Theorem validate_token_only_checks (s : state) (token : json) :
  token_value s = Some token ->
  fst (validate_token s) = Ret (if Py.truthy token then 0 else 1)
  /\ curl_calls (snd (validate_token s)) = curl_calls s
  /\ slept (snd (validate_token s)) = slept s
  /\ files (snd (validate_token s)) = files s
  /\ globals (snd (validate_token s)) = globals s
  /\ printed (snd (validate_token s)) = printed s.
Proof.
  unfold token_value. intros Htok. unfold validate_token. unfold_effects.
  rewrite Htok. now destruct (Py.truthy token).
Qed.

(** X14 on the freshly imported module, whose token is empty. *)
Lemma validate_token_only_checks_witness :
  fst (validate_token (initial_state ∅))
  = Ret (if Py.truthy (JStr "") then 0 else 1)
  /\ curl_calls (snd (validate_token (initial_state ∅)))
     = curl_calls (initial_state ∅)
  /\ slept (snd (validate_token (initial_state ∅))) = slept (initial_state ∅)
  /\ files (snd (validate_token (initial_state ∅))) = files (initial_state ∅)
  /\ globals (snd (validate_token (initial_state ∅)))
     = globals (initial_state ∅)
  /\ printed (snd (validate_token (initial_state ∅)))
     = printed (initial_state ∅).
Proof.
  apply (validate_token_only_checks (initial_state ∅) (JStr "")).
  reflexivity.
Defined.

(** X15. Without an endpoint or without a sink [sunsynk_api_call]
    returns 1 and makes no transport call, whatever the token. *)
Theorem sunsynk_api_call_missing_parameters
    (W : world) (endpoint output_file : string) (s : state) :
  endpoint = "" \/ output_file = "" ->
  fst (sunsynk_api_call W endpoint output_file s) = Ret 1
  /\ curl_calls (snd (sunsynk_api_call W endpoint output_file s))
     = curl_calls s
  /\ slept (snd (sunsynk_api_call W endpoint output_file s)) = slept s
  /\ files (snd (sunsynk_api_call W endpoint output_file s)) = files s.
Proof.
  intros H. unfold sunsynk_api_call, Py.truthy.
  destruct H as [-> | ->]; [now unfold_effects |].
  destruct endpoint; now unfold_effects.
Qed.

(** X15 with a token held and no sink given. *)
Lemma sunsynk_api_call_missing_parameters_witness :
  fst (sunsynk_api_call Sample.always_fails "inverters" ""
         Sample.state_with_token) = Ret 1
  /\ curl_calls
       (snd (sunsynk_api_call Sample.always_fails "inverters" ""
               Sample.state_with_token))
     = curl_calls Sample.state_with_token
  /\ slept
       (snd (sunsynk_api_call Sample.always_fails "inverters" ""
               Sample.state_with_token))
     = slept Sample.state_with_token
  /\ files
       (snd (sunsynk_api_call Sample.always_fails "inverters" ""
               Sample.state_with_token))
     = files Sample.state_with_token.
Proof.
  apply (sunsynk_api_call_missing_parameters Sample.always_fails "inverters"
           "" Sample.state_with_token).
  right. reflexivity.
Defined.

Lemma sunsynk_get_cmd (endpoint out token : string) :
  curl_cmd "GET" endpoint out
    ["Content-Type: application/json"; "authorization: Bearer " +:+ token]
    (extract_data "GET"
       ["Content-Type: application/json"; "authorization: Bearer " +:+ token])
  = ["curl"; "-s"; "-f"; "-S"; "-k"; "-X"; "GET";
     "-H"; "Content-Type: application/json";
     "-H"; "authorization: Bearer " +:+ token;
     endpoint; "-o"; out].
Proof.
  unfold curl_cmd, extract_data. cbn.
  now rewrite (startswith_bearer token).
Qed.

(** X16. With a token held, [sunsynk_api_call] is a GET of the endpoint
    with the JSON content type and the token as bearer, and without a
    body; answered at the first attempt it returns 0 after one transport
    call, and the sink holds the response. *)
Theorem sunsynk_api_call_get
    (W : world) (endpoint output_file token body : string) (s : state) :
  endpoint <> "" ->
  output_file <> "" ->
  output_file <> "/dev/null" ->
  token_value s = Some (JStr token) ->
  token <> "" ->
  body <> "" ->
  (forall cmd, transport W (length (curl_calls s)) cmd
               = Exited 0 (Some body)) ->
  fst (sunsynk_api_call W endpoint output_file s) = Ret 0
  /\ curl_calls (snd (sunsynk_api_call W endpoint output_file s))
     = ["curl"; "-s"; "-f"; "-S"; "-k"; "-X"; "GET";
        "-H"; "Content-Type: application/json";
        "-H"; "authorization: Bearer " +:+ token;
        endpoint; "-o"; output_file]
       :: curl_calls s
  /\ slept (snd (sunsynk_api_call W endpoint output_file s)) = slept s
  /\ files (snd (sunsynk_api_call W endpoint output_file s)) !! output_file
     = Some body.
Proof.
  intros Hendpoint Hout Hsink Htok Htoken Hbody Hnet.
  unfold token_value in Htok.
  unfold sunsynk_api_call, Py.truthy.
  rewrite (eqb_string_false _ _ Hendpoint), (eqb_string_false _ _ Hout).
  cbn [negb orb].
  rewrite (bind_ret_eq _ _ s (JStr token) s)
    by (unfold load_global; now rewrite Htok).
  rewrite (eqb_string_false _ _ Htoken). cbn [negb].
  rewrite (bind_ret_eq _ _ s (JStr token) s)
    by (unfold load_global; now rewrite Htok).
  cbn [py_str].
  rewrite (api_call_answered W "GET" endpoint output_file _ s body Hsink Hbody
             (Hnet _)).
  simpl. rewrite lookup_insert_eq, sunsynk_get_cmd. auto.
Qed.

(** X16 from a state that holds the token abc. *)
Lemma sunsynk_api_call_get_witness :
  fst (sunsynk_api_call (Sample.always_answers Sample.body_true)
         "https://api.sunsynk.net/api/v1/inverters" "inverters.json"
         Sample.state_with_token) = Ret 0
  /\ curl_calls
       (snd (sunsynk_api_call (Sample.always_answers Sample.body_true)
               "https://api.sunsynk.net/api/v1/inverters" "inverters.json"
               Sample.state_with_token))
     = ["curl"; "-s"; "-f"; "-S"; "-k"; "-X"; "GET";
        "-H"; "Content-Type: application/json";
        "-H"; "authorization: Bearer " +:+ "abc";
        "https://api.sunsynk.net/api/v1/inverters"; "-o"; "inverters.json"]
       :: curl_calls Sample.state_with_token
  /\ slept
       (snd (sunsynk_api_call (Sample.always_answers Sample.body_true)
               "https://api.sunsynk.net/api/v1/inverters" "inverters.json"
               Sample.state_with_token))
     = slept Sample.state_with_token
  /\ files
       (snd (sunsynk_api_call (Sample.always_answers Sample.body_true)
               "https://api.sunsynk.net/api/v1/inverters" "inverters.json"
               Sample.state_with_token))
     !! "inverters.json" = Some Sample.body_true.
Proof.
  apply (sunsynk_api_call_get (Sample.always_answers Sample.body_true)
           "https://api.sunsynk.net/api/v1/inverters" "inverters.json" "abc"
           Sample.body_true Sample.state_with_token).
  - discriminate.
  - discriminate.
  - discriminate.
  - reflexivity.
  - discriminate.
  - discriminate.
  - intros cmd. reflexivity.
Defined.

(** ** Token acquisition on known transports *)

(** X17. Over a transport that answers every request, [get_auth_token]
    returns 1 after exactly three transport calls and three waits of 30
    seconds, whatever the responses say: the status 0 of [api_call] is
    taken for a failure, and no response is read. *)
Theorem get_auth_token_over_answering_transport (W : world) (s : state) :
  transport_always_answers W ->
  fst (get_auth_token W s) = Ret 1
  /\ curl_calls (snd (get_auth_token W s))
     = (replicate 3 (token_curl_cmd W) ++ curl_calls s)%list
  /\ slept (snd (get_auth_token W s)) = ([30; 30; 30] ++ slept s)%list.
Proof.
  intros Hnet.
  destruct (get_auth_token_answered W Hnet s) as (s' & E & Hc & Hz & _).
  rewrite E. auto.
Qed.

(** X17 on a transport that answers every request with a valid token
    response. *)
Lemma get_auth_token_over_answering_transport_witness :
  fst (get_auth_token (Sample.always_answers Sample.body_token_ok)
         (initial_state ∅)) = Ret 1
  /\ curl_calls
       (snd (get_auth_token (Sample.always_answers Sample.body_token_ok)
               (initial_state ∅)))
     = (replicate 3
          (token_curl_cmd (Sample.always_answers Sample.body_token_ok))
        ++ curl_calls (initial_state ∅))%list
  /\ slept
       (snd (get_auth_token (Sample.always_answers Sample.body_token_ok)
               (initial_state ∅)))
     = ([30; 30; 30] ++ slept (initial_state ∅))%list.
Proof.
  apply (get_auth_token_over_answering_transport
           (Sample.always_answers Sample.body_token_ok) (initial_state ∅)).
  intros n cmd. exists Sample.body_token_ok. split; [discriminate | reflexivity].
Defined.

Section StaleResponse.

Variable W : world.
Hypothesis Hnet : transport_always_fails W.

Lemma get_auth_token_body_stale st s body d data token :
  files s !! "token.json" = Some body ->
  json_loads W body = Some (JObj d) ->
  d !! "success" = Some (JStr "true") ->
  d !! "data" = Some (JObj data) ->
  data !! "access_token" = Some token ->
  Py.truthy token = true ->
  exists s',
    get_auth_token_body W "token.json" st s
    = (match Py.len token with
       | Some _ => Ret (inr 0)
       | None => Raise TypeError
       end, s')
    /\ advanced s s'
         [token_curl_cmd W; token_curl_cmd W; token_curl_cmd W] [5; 5].
Proof.
  intros Hfile Hjson Hsuccess Hdata Htoken Htruthy.
  unfold get_auth_token_body.
  destruct (api_call_all_failed W "POST" "https://api.sunsynk.net/oauth/token"
              "token.json"
              ["Content-Type: application/json"; token_request_data W] s Hnet)
    as (s1 & E & F & A).
  rewrite (bind_ret_eq _ _ _ _ _ E).
  change (Py.truthy (JInt 1)) with true. cbv iota.
  unfold token_check, assign, lookup_name, store_name, load_name,
    get_auth_token_global_decls.
  unfold_effects. rewrite F, Hfile. simpl.
  destruct (bool_decide (os_getenv W "ENABLE_VERBOSE_LOG" = Some "true"));
    simpl; rewrite ?F, ?Hfile; simpl; rewrite ?F, ?Hfile, Hjson; simpl;
    rewrite Hdata; simpl; rewrite Htoken, Hsuccess; simpl;
    rewrite lookup_insert_eq; simpl;
    rewrite lookup_insert_ne by discriminate; rewrite lookup_insert_eq;
    simpl; rewrite Htruthy; simpl;
    destruct (Py.len token); simpl;
    eexists; (split; [reflexivity |]); unfold advanced in *; simpl;
    destruct A as (Ac & Az & Ag); rewrite Ac, Az, Ag; auto.
Qed.

(** The whole call when the transport is down and an earlier response
    file holds a token. *)
Lemma get_auth_token_stale s body d data token :
  files s !! "token.json" = Some body ->
  json_loads W body = Some (JObj d) ->
  d !! "success" = Some (JStr "true") ->
  d !! "data" = Some (JObj data) ->
  data !! "access_token" = Some token ->
  Py.truthy token = true ->
  exists s',
    get_auth_token W s
    = (match Py.len token with
       | Some _ => Ret 0
       | None => Raise TypeError
       end, s')
    /\ advanced s s' (replicate 3 (token_curl_cmd W)) [5; 5].
Proof.
  intros Hfile Hjson Hsuccess Hdata Htoken Htruthy.
  unfold get_auth_token.
  set (s0 := push_logged
    ("INFO", "Getting bearer token from solar service provider's API.") s).
  destruct (get_auth_token_body_stale (0, ∅) s0 body d data token Hfile Hjson
              Hsuccess Hdata Htoken Htruthy) as (s1 & E1 & A1).
  change (retry_fuel 0) with 4%nat.
  unfold bind at 1. unfold log_message at 1, modify. fold s0.
  rewrite while_loop_enter by reflexivity.
  unfold bind. rewrite E1.
  exists s1. split; [now destruct (Py.len token) |].
  unfold advanced in *. simpl in *. exact A1.
Qed.

End StaleResponse.

(** X18. When the transport is down and token.json, left by an earlier
    run, holds an object with [success] the string true and a true
    [data.access_token], [get_auth_token] takes that file for the
    answer: after the three failed transport calls of one round it
    returns 0, or raises [TypeError] when the token has no length (a
    number, say). The module token is not set either way. *)
Theorem get_auth_token_accepts_stale_response
    (W : world) (s : state) (body : string) (d data : gmap string json)
    (token : json) :
  transport_always_fails W ->
  files s !! "token.json" = Some body ->
  json_loads W body = Some (JObj d) ->
  d !! "success" = Some (JStr "true") ->
  d !! "data" = Some (JObj data) ->
  data !! "access_token" = Some token ->
  Py.truthy token = true ->
  fst (get_auth_token W s)
  = match Py.len token with
    | Some _ => Ret 0
    | None => Raise TypeError
    end
  /\ curl_calls (snd (get_auth_token W s))
     = (replicate 3 (token_curl_cmd W) ++ curl_calls s)%list
  /\ slept (snd (get_auth_token W s)) = ([5; 5] ++ slept s)%list
  /\ token_value (snd (get_auth_token W s)) = token_value s.
Proof.
  intros Hnet Hfile Hjson Hsuccess Hdata Htoken Htruthy.
  destruct (get_auth_token_stale W Hnet s body d data token Hfile Hjson
              Hsuccess Hdata Htoken Htruthy) as (s' & E & Hc & Hz & Hg).
  rewrite E. unfold token_value. simpl. rewrite Hg. auto.
Qed.

(** X18 on a response file that holds the token abc. *)
Lemma get_auth_token_accepts_stale_response_witness :
  fst (get_auth_token Sample.always_fails
         (initial_state {[ "token.json" := Sample.body_token_ok ]}))
  = match Py.len (JStr "abc") with
    | Some _ => Ret 0
    | None => Raise TypeError
    end
  /\ curl_calls
       (snd (get_auth_token Sample.always_fails
               (initial_state {[ "token.json" := Sample.body_token_ok ]})))
     = (replicate 3 (token_curl_cmd Sample.always_fails)
        ++ curl_calls
             (initial_state {[ "token.json" := Sample.body_token_ok ]}))%list
  /\ slept
       (snd (get_auth_token Sample.always_fails
               (initial_state {[ "token.json" := Sample.body_token_ok ]})))
     = ([5; 5]
        ++ slept (initial_state {[ "token.json" := Sample.body_token_ok ]}))%list
  /\ token_value
       (snd (get_auth_token Sample.always_fails
               (initial_state {[ "token.json" := Sample.body_token_ok ]})))
     = token_value (initial_state {[ "token.json" := Sample.body_token_ok ]}).
Proof.
  apply (get_auth_token_accepts_stale_response Sample.always_fails
           (initial_state {[ "token.json" := Sample.body_token_ok ]})
           Sample.body_token_ok
           (<["success" := JStr "true"]>
            (<["data" := JObj (<["access_token" := JStr "abc"]> ∅)]> ∅))
           (<["access_token" := JStr "abc"]> ∅) (JStr "abc")).
  - intros n cmd. exists 22. split; [lia | reflexivity].
  - vm_compute. reflexivity.
  - vm_compute. reflexivity.
  - vm_compute. reflexivity.
  - vm_compute. reflexivity.
  - vm_compute. reflexivity.
  - reflexivity.
Defined.

(** X19. The token request is a POST of a JSON body that carries the
    credentials of the environment pasted between quotes as they are; a
    credential that is not set is sent as the text None. The [-d ]
    pseudo header becomes the body and is not sent as a header. *)
Theorem token_request_format (W : world) :
  token_curl_cmd W
  = ["curl"; "-s"; "-f"; "-S"; "-k"; "-X"; "POST";
     "-H"; "Content-Type: application/json";
     "-d";
     "{" +:+ Py.quoted "areaCode" +:+ ": " +:+ Py.quoted "sunsynk" +:+ ","
     +:+ Py.quoted "client_id" +:+ ": " +:+ Py.quoted "csp-web" +:+ ","
     +:+ Py.quoted "grant_type" +:+ ": " +:+ Py.quoted "password" +:+ ","
     +:+ Py.quoted "password" +:+ ": "
     +:+ Py.quoted (match os_getenv W "SUNSYNK_PASS" with
                    | Some pass => pass
                    | None => "None"
                    end) +:+ ","
     +:+ Py.quoted "source" +:+ ": " +:+ Py.quoted "sunsynk" +:+ ","
     +:+ Py.quoted "username" +:+ ": "
     +:+ Py.quoted (match os_getenv W "SUNSYNK_USER" with
                    | Some user => user
                    | None => "None"
                    end) +:+ "}";
     "https://api.sunsynk.net/oauth/token"; "-o"; "token.json"].
Proof.
  unfold token_curl_cmd.
  set (rest := "{" +:+ Py.quoted "areaCode" +:+ _).
  assert (Hdata : token_request_data W = "-d " +:+ rest) by reflexivity.
  assert (Hrest : rest <> "") by discriminate.
  rewrite Hdata. clearbody rest.
  unfold curl_cmd, extract_data. cbn. rewrite !startswith_data. cbn.
  change ("-d " +:+ rest) with (String "-" (String "d" (String " " rest))).
  cbv iota. now rewrite (eqb_string_false _ _ Hrest).
Qed.

(** ** Transport calls and waits of an operation *)

Lemma total_wait_app (xs ys : list Z) :
  total_wait (xs ++ ys) = total_wait xs + total_wait ys.
Proof.
  unfold total_wait. induction xs as [| x xs IH]; simpl; [reflexivity |].
  rewrite IH. lia.
Qed.

Lemma total_wait_replicate (k : nat) (d : Z) :
  total_wait (replicate k d) = Z.of_nat k * d.
Proof.
  unfold total_wait. induction k as [| k IH]; [reflexivity |].
  simpl replicate. simpl foldr. rewrite IH. lia.
Qed.

Section Quiet.

Variable W : world.

Lemma quiet_ret {A} (a : A) : quiet (ret a).
Proof. now intros s. Qed.

Lemma quiet_raise {A} (e : exn) : quiet (@raise A e).
Proof. now intros s. Qed.

Lemma quiet_bind {A B} (m : M A) (k : A -> M B) :
  quiet m -> (forall a, quiet (k a)) -> quiet (bind m k).
Proof.
  intros Hm Hk s. unfold bind. destruct (Hm s) as [Hc Hz].
  destruct (m s) as [[a | e |] s']; simpl in *; try (split; assumption).
  destruct (Hk a s') as [Hc' Hz']. split; congruence.
Qed.

Lemma quiet_gets {A} (f : state -> A) : quiet (gets f).
Proof. now intros s. Qed.

Lemma quiet_log_message level msg : quiet (log_message level msg).
Proof. now intros s. Qed.

Lemma quiet_print line : quiet (print line).
Proof. now intros s. Qed.

Lemma quiet_os_path_exists path : quiet (os_path_exists path).
Proof. now intros s. Qed.

Lemma quiet_read_text path : quiet (read_text path).
Proof. intros s. unfold read_text. now destruct (files s !! path). Qed.

Lemma quiet_try_json_load path : quiet (try_json_load W path).
Proof. now intros s. Qed.

Lemma quiet_py_get obj key default : quiet (py_get obj key default).
Proof.
  intros s. unfold py_get. destruct obj; try easy. now destruct (_ !! key).
Qed.

Lemma quiet_py_len obj : quiet (py_len obj).
Proof. intros s. unfold py_len. now destruct (Py.len obj). Qed.

Lemma quiet_load_global name : quiet (load_global name).
Proof. intros s. unfold load_global. now destruct (globals s !! name). Qed.

Lemma quiet_assign locals name v : quiet (assign locals name v).
Proof. now intros s. Qed.

Lemma quiet_lookup_name locals name : quiet (lookup_name locals name).
Proof.
  intros s. unfold lookup_name, load_name, get_auth_token_global_decls.
  simpl. now destruct (locals !! name).
Qed.

End Quiet.

Create HintDb quiet.
#[export] Hint Resolve quiet_ret quiet_raise quiet_gets quiet_log_message
  quiet_print quiet_os_path_exists quiet_read_text quiet_try_json_load
  quiet_py_get quiet_py_len quiet_load_global quiet_assign
  quiet_lookup_name : quiet.

(** Walks down a computation whose leaves are quiet primitives. *)
Ltac quiet_walk :=
  repeat first
    [ solve [auto with quiet]
    | apply quiet_bind; [| intros ?]
    | match goal with
      | |- quiet (if ?b then _ else _) => destruct b
      | |- quiet (match ?x with _ => _ end) => destruct x
      end ].

Section Spending.

Variable W : world.

Lemma sp_quiet {A} (Q : A -> Prop) n w (m : M A) :
  quiet m -> 0 <= w ->
  (forall s, match fst (m s) with Ret a => Q a | _ => True end) ->
  spends Q n w m.
Proof.
  intros Hm Hw HQ s. destruct (Hm s) as [Hc Hz]. exists [], [].
  split; [exact Hc |]. split; [simpl; lia |]. split; [exact Hz |].
  split; [constructor |]. split; [exact Hw | apply HQ].
Qed.

Lemma sp_ret {A} (Q : A -> Prop) n w (a : A) :
  Q a -> 0 <= w -> spends Q n w (ret a).
Proof. intros HQ Hw. apply sp_quiet; [apply quiet_ret | exact Hw | easy]. Qed.

Lemma sp_bind {A B} (P : A -> Prop) (Q : B -> Prop) n1 n2 n w1 w2 w
    (m : M A) (k : A -> M B) :
  spends P n1 w1 m -> (forall a, P a -> spends Q n2 w2 (k a)) ->
  (n1 + n2 <= n)%nat -> w1 + w2 <= w -> 0 <= w2 ->
  spends Q n w (bind m k).
Proof.
  intros Hm Hk Hn Hw Hw2 s. unfold bind.
  destruct (Hm s) as (c1 & z1 & Hc1 & Hl1 & Hz1 & Hp1 & Ht1 & HP).
  destruct (m s) as [[a | e |] s']; simpl in *.
  - destruct (Hk a HP s') as (c2 & z2 & Hc2 & Hl2 & Hz2 & Hp2 & Ht2 & HQ).
    exists (c2 ++ c1)%list, (z2 ++ z1)%list.
    rewrite Hc2, Hc1, Hz2, Hz1, !app_assoc, length_app, total_wait_app.
    repeat split; auto; try lia. now apply Forall_app.
  - exists c1, z1. repeat split; auto; lia.
  - exists c1, z1. repeat split; auto; lia.
Qed.

Lemma sp_quiet_bind {A B} (Q : B -> Prop) n w (m : M A) (k : A -> M B) :
  quiet m -> 0 <= w -> (forall a, spends Q n w (k a)) ->
  spends Q n w (bind m k).
Proof.
  intros Hm Hw Hk.
  apply (sp_bind (fun _ => True) Q 0 n n 0 w w); auto; try lia.
  apply sp_quiet; [exact Hm | lia | intros s; now destruct (fst (m s))].
Qed.

Lemma sp_time_sleep_bind {B} (Q : B -> Prop) n w d (k : unit -> M B) :
  0 < d -> d <= w -> (forall a, spends Q n (w - d) (k a)) ->
  spends Q n w (bind (time_sleep d) k).
Proof.
  intros Hd Hw Hk.
  apply (sp_bind (fun _ => True) Q 0 n n d (w - d) w); auto; try lia.
  intros s. exists [], [d]. unfold total_wait. simpl.
  repeat split; auto; lia.
Qed.

(** [api_call] makes at most 3 transport calls and waits at most twice 5
    seconds. *)
Lemma sp_api_call method url out headers :
  spends (fun _ => True) 3 10 (api_call W method url out headers).
Proof.
  intros s.
  destruct (api_call_accounting W method url out headers s)
    as (k & Hk & (Hc & Hz & _) & _).
  eexists _, _. split; [exact Hc |]. split; [rewrite length_replicate; lia |].
  split; [exact Hz |]. rewrite total_wait_replicate.
  split; [apply Forall_replicate; lia |].
  split; [lia |]. now destruct (fst _).
Qed.

Lemma sp_api_call_bind {B} (Q : B -> Prop) n w method url out headers
    (k : Z -> M B) :
  (3 <= n)%nat -> 10 <= w ->
  (forall status, spends Q (n - 3) (w - 10) (k status)) ->
  spends Q n w (bind (api_call W method url out headers) k).
Proof.
  intros Hn Hw Hk.
  apply (sp_bind (fun _ => True) Q 3 (n - 3) n 10 (w - 10) w);
    auto using sp_api_call; lia.
Qed.

(** A retry loop: an iteration at count [c] makes at most [n] transport
    calls and waits at most [wait_at c] seconds; [calls_from c] and
    [wait_from c] bound what the loop spends from count [c] on. *)
Lemma sp_retry_loop {St R} (count : St -> Z) (n : nat)
    (wait_at : Z -> Z) (calls_from : Z -> nat) (wait_from : Z -> Z)
    (body : St -> M (St + R)) after fuel st :
  (forall c, 0 <= wait_from c) ->
  (forall c, c < DEFAULT_MAX_RETRIES ->
     (n + calls_from (c + 1)%Z <= calls_from c)%nat
     /\ wait_at c + wait_from (c + 1) <= wait_from c) ->
  (forall st, Z.ltb (count st) DEFAULT_MAX_RETRIES = true ->
     spends
       (fun r => match r with
                 | inl st' => count st' = count st + 1
                 | inr _ => True
                 end)
       n (wait_at (count st)) (body st)) ->
  (forall st, quiet (after st)) ->
  spends (fun _ => True) (calls_from (count st)) (wait_from (count st))
    (while_loop fuel (fun st => Z.ltb (count st) DEFAULT_MAX_RETRIES)
       body after st).
Proof.
  intros Hpos Hstep Hbody Hafter. revert st.
  induction fuel as [| fuel IH]; intros st.
  - apply sp_quiet; [now intros s | apply Hpos | now intros s].
  - rewrite while_loop_step.
    destruct (Z.ltb (count st) DEFAULT_MAX_RETRIES) eqn:Hcond.
    + destruct (Hstep (count st)) as [Hn Hw]; [now apply Z.ltb_lt |].
      eapply sp_bind; [apply Hbody, Hcond | | exact Hn | exact Hw | apply Hpos].
      intros [st' | v] Hr.
      * rewrite <- Hr. apply IH.
      * apply sp_ret; [exact I | apply Hpos].
    + apply sp_quiet; [apply Hafter | apply Hpos |].
      intros s. now destruct (fst _).
Qed.

End Spending.

Lemma quiet_token_check locals : quiet (token_check locals).
Proof. unfold token_check. quiet_walk. Qed.

#[export] Hint Resolve quiet_token_check : quiet.

(** Walks down an iteration of a retry loop: the budget pays for
    [api_call] and for each wait, and the rest is quiet. *)
Ltac spend_walk :=
  repeat first
    [ match goal with
      | |- spends _ _ _ (continue_with _) =>
          apply sp_ret; [simpl; reflexivity | lia]
      | |- spends _ _ _ (return_ _) => apply sp_ret; [exact I | lia]
      | |- spends _ _ _ (ret _) => apply sp_ret; [exact I | lia]
      | |- spends _ _ _ (bind (time_sleep _) _) =>
          apply sp_time_sleep_bind; [lia | lia | intros ?]
      | |- spends _ _ _ (bind (api_call _ _ _ _ _) _) =>
          apply sp_api_call_bind; [lia | lia | intros ?]
      | |- spends _ _ _ (bind _ _) =>
          apply sp_quiet_bind; [quiet_walk | lia | intros ?]
      | |- spends _ _ _ (if true then ?a else _) =>
          change (if true then ?a else _) with a
      | |- spends _ _ _ (if false then _ else ?b) =>
          change (if false then _ else ?b) with b
      | |- spends _ _ _ (if ?b then _ else _) => destruct b
      | |- spends _ _ _ (match ?x with _ => _ end) => destruct x
      end ].

Section SpendingOfOperations.

Variable W : world.

Lemma get_auth_token_body_spends out st :
  spends
    (fun r => match r with
              | inl st' => fst st' = fst st + 1
              | inr _ => True
              end)
    3 40 (get_auth_token_body W out st).
Proof.
  unfold get_auth_token_body, DEFAULT_RETRY_DELAY. cbv zeta. spend_walk.
Qed.

Lemma get_auth_token_spends : spends (fun _ => True) 9 120 (get_auth_token W).
Proof.
  unfold get_auth_token.
  apply sp_quiet_bind; [quiet_walk | lia | intros _].
  apply (sp_retry_loop (St := Z * gmap string json) fst 3
           (fun _ => 40)
           (fun c => (3 * Z.to_nat (DEFAULT_MAX_RETRIES - c))%nat)
           (fun c => 40 * Z.max 0 (DEFAULT_MAX_RETRIES - c))).
  - intros c. lia.
  - unfold DEFAULT_MAX_RETRIES. intros c Hc. lia.
  - intros st _. apply get_auth_token_body_spends.
  - intros st. unfold get_auth_token_after. quiet_walk.
Qed.

Lemma send_inverter_settings_body_spends sn data endpoint out rc :
  spends
    (fun r => match r with
              | inl rc' => rc' = rc + 1
              | inr _ => True
              end)
    3 (settings_wait_at rc)
    (send_inverter_settings_body W sn data endpoint out rc).
Proof.
  unfold send_inverter_settings_body, settings_retry, settings_wait_at,
    DEFAULT_RETRY_DELAY.
  cbv zeta. destruct (Z.ltb (rc + 1) DEFAULT_MAX_RETRIES); spend_walk.
Qed.

Lemma send_inverter_settings_spends sn data :
  spends (fun _ => True) 9 90 (send_inverter_settings W sn data).
Proof.
  unfold send_inverter_settings. cbv zeta.
  destruct (_ || _); [apply sp_quiet; [quiet_walk | lia | now intros s] |].
  destruct (json_loads W data);
    [| apply sp_quiet; [quiet_walk | lia |];
       intros s; now destruct (json_error W data)].
  apply sp_quiet_bind; [quiet_walk | lia | intros _].
  apply sp_quiet_bind; [quiet_walk | lia | intros _].
  apply (sp_retry_loop (St := Z) (fun rc => rc) 3 settings_wait_at
           (fun c => (3 * Z.to_nat (DEFAULT_MAX_RETRIES - c))%nat)
           (fun c => if Z.ltb c DEFAULT_MAX_RETRIES
                     then 40 * (DEFAULT_MAX_RETRIES - c) - 30 else 0)).
  - intros c. unfold DEFAULT_MAX_RETRIES. destruct (Z.ltb_spec c 3); lia.
  - unfold settings_wait_at, DEFAULT_MAX_RETRIES. intros c Hc.
    destruct (Z.ltb_spec c 3); [| lia].
    destruct (Z.ltb_spec (c + 1) 3); lia.
  - intros rc _. apply send_inverter_settings_body_spends.
  - intros rc. unfold send_inverter_settings_after. quiet_walk.
Qed.

Lemma validate_token_quiet : quiet validate_token.
Proof. unfold validate_token. quiet_walk. Qed.

Lemma sunsynk_api_call_spends endpoint out :
  spends (fun _ => True) 3 10 (sunsynk_api_call W endpoint out).
Proof.
  unfold sunsynk_api_call.
  destruct (_ || _); [apply sp_quiet; [quiet_walk | lia | now intros s] |].
  apply sp_quiet_bind; [quiet_walk | lia | intros token].
  destruct (negb _); [apply sp_quiet; [quiet_walk | lia | now intros s] |].
  apply sp_quiet_bind; [quiet_walk | lia | intros token'].
  apply sp_api_call.
Qed.

Lemma ha_api_call_spends endpoint method data out :
  spends (fun _ => True) 3 10 (ha_api_call W endpoint method data out).
Proof.
  unfold ha_api_call. cbv zeta.
  destruct (negb _); [apply sp_quiet; [quiet_walk | lia | now intros s] |].
  destruct (match os_getenv W "HA_TOKEN" with Some _ => _ | None => _ end);
    [apply sp_quiet; [quiet_walk | lia | now intros s] |].
  apply sp_api_call.
Qed.

Lemma run_spends op :
  spends (fun _ => True) (fst (budget op)) (snd (budget op)) (run W op).
Proof.
  destruct op; simpl.
  - apply get_auth_token_spends.
  - apply sp_quiet; [apply validate_token_quiet | lia |].
    intros s. now destruct (fst _).
  - apply sp_api_call.
  - apply sunsynk_api_call_spends.
  - apply ha_api_call_spends.
  - apply send_inverter_settings_spends.
Qed.

End SpendingOfOperations.

(** X20. No operation makes more transport calls or waits longer than
    its budget, whatever the transport answers: at most 3 calls and 10
    seconds for [api_call] and its two wrappers, 9 calls and 90 seconds
    for [send_inverter_settings], 9 calls and 120 seconds for
    [get_auth_token], none for [validate_token]. The calls and waits
    made before are kept, and every wait is positive. *)
Theorem run_within_budget (W : world) (op : operation) (s : state) :
  exists (calls : list (list string)) (waits : list Z),
    curl_calls (snd (run W op s)) = (calls ++ curl_calls s)%list
    /\ (length calls <= fst (budget op))%nat
    /\ slept (snd (run W op s)) = (waits ++ slept s)%list
    /\ Forall (fun z => 0 < z) waits
    /\ total_wait waits <= snd (budget op).
Proof.
  destruct (run_spends W op s) as (calls & waits & Hc & Hl & Hz & Hp & Ht & _).
  now exists calls, waits.
Qed.

(** ** Standard output *)

Section Silent.

Variable W : world.

Lemma silent_ret {A} (a : A) : silent (ret a).
Proof. now intros s. Qed.

Lemma silent_raise {A} (e : exn) : silent (@raise A e).
Proof. now intros s. Qed.

Lemma silent_bind {A B} (m : M A) (k : A -> M B) :
  silent m -> (forall a, silent (k a)) -> silent (bind m k).
Proof.
  intros Hm Hk s. unfold bind. specialize (Hm s).
  destruct (m s) as [[a | e |] s']; simpl in *; try assumption.
  now rewrite Hk.
Qed.

Lemma silent_gets {A} (f : state -> A) : silent (gets f).
Proof. now intros s. Qed.

Lemma silent_log_message level msg : silent (log_message level msg).
Proof. now intros s. Qed.

Lemma silent_time_sleep d : silent (time_sleep d).
Proof. now intros s. Qed.

Lemma silent_os_path_exists p : silent (os_path_exists p).
Proof. now intros s. Qed.

Lemma silent_os_stat_size p : silent (os_stat_size p).
Proof. intros s. unfold os_stat_size. now destruct (files s !! p). Qed.

Lemma silent_read_text p : silent (read_text p).
Proof. intros s. unfold read_text. now destruct (files s !! p). Qed.

Lemma silent_try_json_load p : silent (try_json_load W p).
Proof. now intros s. Qed.

Lemma silent_py_get obj key default : silent (py_get obj key default).
Proof.
  intros s. unfold py_get. destruct obj; try easy. now destruct (_ !! key).
Qed.

Lemma silent_py_len obj : silent (py_len obj).
Proof. intros s. unfold py_len. now destruct (Py.len obj). Qed.

Lemma silent_load_global name : silent (load_global name).
Proof. intros s. unfold load_global. now destruct (globals s !! name). Qed.

Lemma silent_assign locals name v : silent (assign locals name v).
Proof. now intros s. Qed.

Lemma silent_lookup_name locals name : silent (lookup_name locals name).
Proof.
  intros s. unfold lookup_name, load_name, get_auth_token_global_decls.
  simpl. now destruct (locals !! name).
Qed.

Lemma silent_subprocess_call cmd : silent (subprocess_call W cmd).
Proof.
  intros s. unfold subprocess_call, curl_effect.
  destruct (transport W _ cmd) as [code [content |] |]; simpl; try reflexivity.
  now destruct (String.eqb _ _).
Qed.

Lemma silent_while_loop {St R} fuel cond (body : St -> M (St + R)) after st :
  (forall st, silent (body st)) -> (forall st, silent (after st)) ->
  silent (while_loop fuel cond body after st).
Proof.
  intros Hbody Hafter. revert st.
  induction fuel as [| fuel IH]; intros st.
  - now intros s.
  - rewrite while_loop_step. destruct (cond st); [| apply Hafter].
    apply silent_bind; [apply Hbody |].
    intros [st' | v]; [apply IH | apply silent_ret].
Qed.

(** A block guarded by the verbose switch is skipped when it is off. *)
Lemma silent_unless_verbose {A} (m m' : M A) :
  ~ verbose W -> silent m' ->
  silent
    (if bool_decide (os_getenv W "ENABLE_VERBOSE_LOG" = Some "true")
     then m else m').
Proof.
  intros Hv Hm'. rewrite bool_decide_eq_false_2 by exact Hv. exact Hm'.
Qed.

End Silent.

Create HintDb silent discriminated.

#[export] Hint Resolve silent_ret silent_raise silent_gets
  silent_log_message silent_time_sleep silent_os_path_exists
  silent_os_stat_size silent_read_text silent_try_json_load silent_py_get
  silent_py_len silent_load_global silent_assign silent_lookup_name
  silent_subprocess_call : silent.

Ltac silent_walk :=
  repeat first
    [ progress auto with silent
    | apply silent_unless_verbose; [assumption |]
    | apply silent_bind; [| intros ?]
    | apply silent_while_loop; intros ?
    | match goal with
      | |- silent (if ?b then _ else _) => destruct b
      | |- silent (match ?x with _ => _ end) => destruct x
      | |- silent (continue_with _) => apply silent_ret
      | |- silent (return_ _) => apply silent_ret
      end ].

Section SilentOperations.

Variable W : world.

Lemma silent_api_call method url out headers :
  silent (api_call W method url out headers).
Proof. unfold api_call, api_call_body, api_call_after. silent_walk. Qed.

Lemma silent_run op : ~ verbose W -> silent (run W op).
Proof.
  intros Hv.
  pose proof silent_api_call as Hcall.
  destruct op; simpl run.
  - unfold get_auth_token, get_auth_token_body, get_auth_token_after,
      token_check.
    silent_walk.
  - unfold validate_token. silent_walk.
  - apply silent_api_call.
  - unfold sunsynk_api_call. silent_walk.
  - unfold ha_api_call. silent_walk.
  - unfold send_inverter_settings, send_inverter_settings_body,
      send_inverter_settings_after, settings_retry.
    silent_walk.
Qed.

End SilentOperations.

(** X21. Unless [ENABLE_VERBOSE_LOG] is the string true, no operation
    prints anything to standard output: the raw token response and the
    settings are printed in verbose mode only. *)
Theorem run_prints_only_when_verbose
    (W : world) (op : operation) (s : state) :
  ~ verbose W -> printed (snd (run W op s)) = printed s.
Proof. intros Hv. now apply silent_run. Qed.

(** X21 on a token request in an empty environment. *)
Lemma run_prints_only_when_verbose_witness :
  printed (snd (run (Sample.always_answers Sample.body_token_ok)
                  OpGetAuthToken (initial_state ∅)))
  = printed (initial_state ∅).
Proof.
  apply (run_prints_only_when_verbose
           (Sample.always_answers Sample.body_token_ok) OpGetAuthToken
           (initial_state ∅)).
  unfold verbose. vm_compute. discriminate.
Defined.
